(** * jsoncons-nb: the advanced COBOL batch processor (src/custom_logic.py)

    A shallow embedding of [advanced_cobol_processor], [DecimalEncoder] and
    the script under [if __name__ == "__main__"], and the properties of the
    batch loop: per-line error isolation, line numbering, the shape of the
    error report, the rendering of decimals, and what the script prints and
    writes.

    Python values are modelled as follows.
    - [str] is a list of Unicode code points ([pystr]); [lit] turns a Rocq
      string literal into one.
    - [int] is [Z]; [decimal.Decimal] (finite values) is sign, coefficient
      and exponent, as [Decimal.as_tuple()] shows them.
    - The text of an [int] is refused by the interpreter when the number has
      more digits than [sys.get_int_max_str_digits()] allows; the limit is a
      parameter, [max_str_digits]. The counters of the program
      ([line_count] and the results of [len]) count lines and list items of
      one run; their text is taken as never refused.
    - [dict] is an insertion-ordered association list.
    - An exception is its class (as far as the [except] clauses of the file
      tell classes apart) and the text [str(e)] that the f-strings print.
    - The file system and the decoder [parse_cobol_line], which the file
      imports from the jsoncons package, are parameters; the decoder is a
      function that gives a new dict on every call. Opening a file for
      writing and writing to it are separate steps of the file system: a
      write that fails after the file was opened leaves a truncated file.
    - [logging] calls are kept as a list of level and message. *)

From Stdlib Require Import List Sorted String Ascii ZArith NArith Bool Lia.
From Stdlib Require Import DecimalString DecimalN DecimalPos.
Import ListNotations.

Set Implicit Arguments.
Open Scope string_scope.
Open Scope list_scope.

(** ** Python strings *)

Module PyStr.

Definition char := N.
Definition pystr := list char.

Definition lit (s : string) : pystr := map N_of_ascii (list_ascii_of_string s).

Definition eqb (a b : pystr) : bool :=
  if list_eq_dec N.eq_dec a b then true else false.

(** [str.isspace] on one code point: the characters [str.strip] and
    [str.rstrip] remove when called without an argument. *)
Definition isspace (c : char) : bool :=
  (((0x09 <=? c) && (c <=? 0x0D)) || ((0x1C <=? c) && (c <=? 0x20))
   || (c =? 0x85) || (c =? 0xA0) || (c =? 0x1680)
   || ((0x2000 <=? c) && (c <=? 0x200A))
   || (c =? 0x2028) || (c =? 0x2029) || (c =? 0x202F) || (c =? 0x205F)
   || (c =? 0x3000))%N.

(** [s.lstrip()] *)
Fixpoint lstrip (s : pystr) : pystr :=
  match s with
  | [] => []
  | c :: t => if isspace c then lstrip t else s
  end.

(** [s.rstrip()]: a character is dropped when it is whitespace and
    nothing survives to its right. *)
Fixpoint rstrip (s : pystr) : pystr :=
  match s with
  | [] => []
  | c :: t =>
      match rstrip t with
      | [] => if isspace c then [] else [c]
      | t' => c :: t'
      end
  end.

(** [s.strip()] *)
Definition strip (s : pystr) : pystr := rstrip (lstrip s).

(** [str(n)] for an [int]. *)
Definition of_Z (z : Z) : pystr := lit (NilZero.string_of_int (Z.to_int z)).

(** The digits of a natural number, ["0"] for zero. *)
Definition digits (n : N) : pystr := lit (NilZero.string_of_uint (N.to_uint n)).

(** ['0' * k] *)
Definition zeros (k : nat) : pystr := repeat 48%N k.

(** ["%+d" % z] *)
Definition of_Z_signed (z : Z) : pystr :=
  if (0 <=? z)%Z then lit "+" ++ of_Z z else of_Z z.

End PyStr.
Import PyStr.

(** ** decimal.Decimal *)

Module Dec.

(** A finite [Decimal]: [sign] is true for a negative number, the value
    is [(-1)^sign * coefficient * 10^exponent]. *)
Record Decimal := mkDecimal { sign : bool; coefficient : N; exponent : Z }.

Local Open Scope Z_scope.

(** [str(d)]: the to-scientific-string conversion of the decimal module
    (plain notation when the exponent is at most 0 and the number has
    more than -6 digits left of the point, else one digit, a point and
    [E] with a signed exponent). *)
Definition str (d : Decimal) : pystr :=
  let ds := digits (coefficient d) in
  let len := Z.of_nat (List.length ds) in
  let leftdigits := exponent d + len in
  let dotplace :=
    if (exponent d <=? 0) && (-6 <? leftdigits) then leftdigits else 1 in
  let intpart :=
    if dotplace <=? 0 then lit "0"
    else if len <=? dotplace then ds ++ zeros (Z.to_nat (dotplace - len))
    else firstn (Z.to_nat dotplace) ds in
  let fracpart :=
    if dotplace <=? 0 then lit "." ++ zeros (Z.to_nat (- dotplace)) ++ ds
    else if len <=? dotplace then []
    else lit "." ++ skipn (Z.to_nat dotplace) ds in
  let exp :=
    if leftdigits =? dotplace then []
    else lit "E" ++ of_Z_signed (leftdigits - dotplace) in
  (if sign d then lit "-" else []) ++ intpart ++ fracpart ++ exp.

(** The signed coefficient. *)
Definition signed (d : Decimal) : Z :=
  if sign d then - Z.of_N (coefficient d) else Z.of_N (coefficient d).

(** [a < b], exactly: both are brought to the smaller exponent. *)
Definition ltb (a b : Decimal) : bool :=
  let m := Z.min (exponent a) (exponent b) in
  signed a * 10 ^ (exponent a - m) <? signed b * 10 ^ (exponent b - m).

(** An [int] as a [Decimal] (what a comparison of the two does). *)
Definition of_Z (z : Z) : Decimal :=
  mkDecimal (z <? 0) (Z.to_N (Z.abs z)) 0.

End Dec.

(** ** Reading a decimal text

    The number a decimal text denotes, for the texts [str] writes: an
    optional [-], digits, an optional point and digits, an optional [E]
    with a signed exponent (numeric strings of the decimal module). It
    serves to state that [Dec.str] writes a [Decimal] exactly: reading the
    text gives the same sign, coefficient and exponent back. *)

(** An ASCII digit. *)
Definition is_digit (c : char) : bool := ((48 <=? c) && (c <=? 57))%N.

(** The leading digits of a text, and the rest. *)
Fixpoint span_digits (s : pystr) : pystr * pystr :=
  match s with
  | [] => ([], [])
  | c :: t =>
      if is_digit c
      then let (ds, rest) := span_digits t in (c :: ds, rest)
      else ([], s)
  end.

(** The number a run of digits denotes. *)
Definition number_from (acc : N) (s : pystr) : N :=
  fold_left (fun a c => (10 * a + (c - 48))%N) s acc.

Definition number_of (s : pystr) : N := number_from 0 s.

(** The text is empty or starts with something other than a digit. *)
Definition starts_without_digit (s : pystr) : Prop :=
  match s with
  | [] => True
  | c :: _ => is_digit c = false
  end.

(** A leading [-]. *)
Definition read_sign (s : pystr) : bool * pystr :=
  match s with
  | 45%N :: t => (true, t)
  | _ => (false, s)
  end.

(** Nothing, or [E], a sign and digits up to the end of the text. *)
Definition read_exponent (s : pystr) : option Z :=
  match s with
  | [] => Some 0%Z
  | 69%N :: 43%N :: t =>
      match span_digits t with
      | (c :: ds, []) => Some (Z.of_N (number_of (c :: ds)))
      | _ => None
      end
  | 69%N :: 45%N :: t =>
      match span_digits t with
      | (c :: ds, []) => Some (- Z.of_N (number_of (c :: ds)))%Z
      | _ => None
      end
  | _ => None
  end.

(** The [Decimal] a text denotes: the digits of both parts are the
    coefficient, and every digit of the fraction lowers the exponent by one. *)
Definition read_decimal (s : pystr) : option Dec.Decimal :=
  let (sg, s1) := read_sign s in
  let (ip, s2) := span_digits s1 in
  let (fp, s3) :=
    match s2 with
    | 46%N :: t => span_digits t
    | _ => ([], s2)
    end in
  match ip, read_exponent s3 with
  | _ :: _, Some e =>
      Some (Dec.mkDecimal sg (number_of (ip ++ fp))
              (e - Z.of_nat (List.length fp)))
  | _, _ => None
  end.

(** The text of an exponent: nothing, or [E] and a signed number. *)
Definition exponent_text (ex : pystr) (e : Z) : Prop :=
  (ex = [] /\ e = 0%Z) \/ ex = lit "E" ++ of_Z_signed e.

(** ** Values, records and exceptions *)

(** What a field of a decoded record holds: [None], a [bool], an [int],
    a [str] or a [decimal.Decimal]. *)
Inductive value :=
| VNone
| VBool (b : bool)
| VInt (z : Z)
| VStr (s : pystr)
| VDec (d : Dec.Decimal).

(** [v == s] for a string literal [s]: only an equal [str] compares equal. *)
Definition value_eq_str (v : value) (s : pystr) : bool :=
  match v with
  | VStr t => PyStr.eqb t s
  | _ => false
  end.

(** [v in l] for a list [l] of string literals. *)
Definition value_in (v : value) (l : list pystr) : bool :=
  existsb (value_eq_str v) l.

(** A [dict] with [str] keys, in insertion order. *)
Definition dict := list (pystr * value).

(** [d.get(k)]: the value of the first (only) entry for [k], [None] when
    there is none. *)
Fixpoint dict_get (d : dict) (k : pystr) : value :=
  match d with
  | [] => VNone
  | (k', v) :: t => if PyStr.eqb k' k then v else dict_get t k
  end.

(** [k in d] *)
Fixpoint dict_contains (d : dict) (k : pystr) : bool :=
  match d with
  | [] => false
  | (k', _) :: t => PyStr.eqb k' k || dict_contains t k
  end.

(** [d[k] = v]: an existing key keeps its place, a new one goes last. *)
Fixpoint dict_set (d : dict) (k : pystr) (v : value) : dict :=
  match d with
  | [] => [(k, v)]
  | (k', v') :: t =>
      if PyStr.eqb k' k then (k', v) :: t else (k', v') :: dict_set t k v
  end.

(** Exception classes, as far as the handlers of the file tell them apart.
    A subclass stands with its nearest listed base: [UnicodeDecodeError] and
    [json.JSONDecodeError] are [ValueError]s, [PermissionError] is an
    [OtherException]. [NonException] is a [BaseException] outside
    [Exception] ([KeyboardInterrupt], [SystemExit]). *)
Inductive exc_class :=
| CobolParsingError
| ValueError
| KeyError
| TypeError
| FileNotFoundError
| OtherException
| NonException.

(** A raised exception: its class and [str(e)]. *)
Record exc := mkExc { exc_cls : exc_class; exc_str : pystr }.

(** [isinstance(e, (CobolParsingError, ValueError, KeyError))];
    [CobolParsingError] is declared a subclass of [ValueError]. *)
Definition is_record_error (c : exc_class) : bool :=
  match c with
  | CobolParsingError | ValueError | KeyError => true
  | _ => false
  end.

(** [isinstance(e, Exception)] *)
Definition is_Exception (c : exc_class) : bool :=
  match c with
  | NonException => false
  | _ => true
  end.

(** [isinstance(e, FileNotFoundError)] *)
Definition is_FileNotFoundError (c : exc_class) : bool :=
  match c with
  | FileNotFoundError => true
  | _ => false
  end.

(** The result of evaluating an expression: a value or a raised exception. *)
Inductive outcome (A : Type) :=
| Normal (a : A)
| Raise (e : exc).
Arguments Normal {A} a.
Arguments Raise {A} e.

Definition bind {A B : Type} (m : outcome A) (f : A -> outcome B) : outcome B :=
  match m with
  | Normal a => f a
  | Raise e => Raise e
  end.

Notation "x <- m ;; k" := (bind m (fun x => k))
  (at level 61, m at next level, right associativity).

(** [sys.int_info.str_digits_check_threshold]: an int of at most this many
    digits is converted without a check. *)
Definition str_digits_check_threshold : Z := 640.

(** [sys.int_info.default_max_str_digits] *)
Definition default_max_str_digits : N := 4300.

(** The number of decimal digits of [abs(z)]. *)
Definition digit_count (z : Z) : Z :=
  Z.of_nat (List.length (digits (Z.abs_N z))).

(** [str(z)], [repr(z)] and [format(z, "")] for an [int]: when the limit
    [max_str_digits] ([sys.get_int_max_str_digits()]) is not 0, a number of
    more digits than the limit (and than the check threshold) is refused
    with a [ValueError]. *)
Definition int_str (max_str_digits : N) (z : Z) : outcome pystr :=
  if (max_str_digits =? 0)%N
     || (digit_count z <=? Z.max (Z.of_N max_str_digits) str_digits_check_threshold)%Z
  then Normal (PyStr.of_Z z)
  else Raise (mkExc ValueError
         (lit "Exceeds the limit (" ++ digits max_str_digits
          ++ lit " digits) for integer string conversion; use sys.set_int_max_str_digits() to increase the limit")).

(** [str(v)], which is also what an f-string evaluates for [{v}]. *)
Definition value_str (max_str_digits : N) (v : value) : outcome pystr :=
  match v with
  | VNone => Normal (lit "None")
  | VBool true => Normal (lit "True")
  | VBool false => Normal (lit "False")
  | VInt z => int_str max_str_digits z
  | VStr s => Normal s
  | VDec d => Normal (Dec.str d)
  end.

(** [d[k]]: raises [KeyError(k)], whose [str] is the [repr] of the key. *)
Definition dict_getitem (d : dict) (k : pystr) : outcome value :=
  if dict_contains d k then Normal (dict_get d k)
  else Raise (mkExc KeyError (lit "'" ++ k ++ lit "'")).

(** [v < d] for a [Decimal] [d]: numbers compare exactly ([bool] is an
    [int]); anything else is a [TypeError]. *)
Definition value_lt_Decimal (v : value) (d : Dec.Decimal) : outcome bool :=
  match v with
  | VDec x => Normal (Dec.ltb x d)
  | VInt z => Normal (Dec.ltb (Dec.of_Z z) d)
  | VBool b => Normal (Dec.ltb (Dec.of_Z (if b then 1 else 0)) d)
  | VStr _ =>
      Raise (mkExc TypeError
        (lit "'<' not supported between instances of 'str' and 'decimal.Decimal'"))
  | VNone =>
      Raise (mkExc TypeError
        (lit "'<' not supported between instances of 'NoneType' and 'decimal.Decimal'"))
  end.

(** ** JSON output *)

#[local] Unset Elimination Schemes.
Inductive json :=
| JNull
| JBool (b : bool)
| JInt (z : Z)
| JStr (s : pystr)
| JObj (fields : list (pystr * json))
| JArr (items : list json).
#[local] Set Elimination Schemes.

(** [obj.__class__.__name__] *)
Definition class_name (obj : value) : pystr :=
  match obj with
  | VNone => lit "NoneType"
  | VBool _ => lit "bool"
  | VInt _ => lit "int"
  | VStr _ => lit "str"
  | VDec _ => lit "Decimal"
  end.

(** [json.JSONEncoder.default]: always a [TypeError]. *)
Definition JSONEncoder_default (obj : value) : outcome value :=
  Raise (mkExc TypeError
    (lit "Object of type " ++ class_name obj ++ lit " is not JSON serializable")).

(** [DecimalEncoder.default]: a [Decimal] becomes [str(obj)]; anything
    else is left to the base class. *)
Definition DecimalEncoder_default (obj : value) : outcome value :=
  match obj with
  | VDec d => Normal (VStr (Dec.str d))
  | _ => JSONEncoder_default obj
  end.

(** The JSON value of what [json.JSONEncoder] writes by itself: [None],
    [bool], [int] and [str]; it has no case for a [Decimal]. *)
Definition encode_native (v : value) : option json :=
  match v with
  | VNone => Some JNull
  | VBool b => Some (JBool b)
  | VInt z => Some (JInt z)
  | VStr s => Some (JStr s)
  | VDec _ => None
  end.

(** The encoder on one value. The digits of an [int] are written with
    [int.__repr__], which the digit limit can refuse. A value the encoder
    cannot write goes through [default], and what [default] returns is
    encoded in its place (the encoder would call [default] again on a value
    it still cannot write; [DecimalEncoder.default] only returns a [str],
    so the second round is cut here by the base class's error). *)
Definition encode_value (max_str_digits : N) (v : value) : outcome json :=
  match v with
  | VInt z => _ <- int_str max_str_digits z ;; Normal (JInt z)
  | _ =>
      match encode_native v with
      | Some j => Normal j
      | None =>
          v' <- DecimalEncoder_default v ;;
          match encode_native v' with
          | Some j => Normal j
          | None => Raise (mkExc TypeError (lit "Object of type " ++ class_name v'
                                              ++ lit " is not JSON serializable"))
          end
      end
  end.

Fixpoint encode_fields (max_str_digits : N) (d : dict)
  : outcome (list (pystr * json)) :=
  match d with
  | [] => Normal []
  | (k, v) :: t =>
      j <- encode_value max_str_digits v ;;
      js <- encode_fields max_str_digits t ;;
      Normal ((k, j) :: js)
  end.

Fixpoint encode_records (max_str_digits : N) (rs : list dict)
  : outcome (list json) :=
  match rs with
  | [] => Normal []
  | r :: t =>
      fs <- encode_fields max_str_digits r ;;
      js <- encode_records max_str_digits t ;;
      Normal (JObj fs :: js)
  end.

(** The document [json.dump(processed_records, f_out, cls=DecimalEncoder)]
    writes (indentation is not modelled); the encoder raises when it meets
    a value it cannot write. *)
Definition json_dump (max_str_digits : N) (rs : list dict) : outcome json :=
  js <- encode_records max_str_digits rs ;;
  Normal (JArr js).

(** ** The batch processor *)

Inductive level := INFO | WARNING | ERROR.

(** One call of [logging.info], [logging.warning], [logging.error] or
    [logging.exception] (which logs at level ERROR): level and message;
    tracebacks are not modelled. *)
Definition log_entry := (level * pystr)%type.

(** An item of [processing_errors]: the dict appended for a failing line,
    or a plain string. *)
Inductive err_item :=
| EDict (d : dict)
| EText (s : pystr).

(** The local variables the loop updates. *)
Record state := mkState {
  processed_records : list dict;
  processing_errors : list err_item;
  line_count : Z;
  logged : list log_entry }.

(** The files the function touches. [fs_layout p] is what
    [open(p)] and [json.load] give for the layout; [fs_data p] is the
    failure of [open(p)], or the lines the iteration yields and the
    exception, if any, that reading raises after them; [fs_open_w p] is the
    exception, if any, of [open(p, 'w')], which creates or truncates the
    file; [fs_put p doc] is the exception, if any, of writing [doc] to the
    file opened at [p] and closing it. *)
Record filesystem (layout : Type) := mkFs {
  fs_layout : pystr -> outcome layout;
  fs_data : pystr -> outcome (list pystr * option exc);
  fs_open_w : pystr -> option exc;
  fs_put : pystr -> json -> option exc }.

(** [with open(p, 'w') as f: json.dump(..., f)]: the file is opened, then
    the encoder runs, with the outcome [encoded], and the document it
    produces is written. The result is the document written in full, or the
    first exception raised on the way. *)
Definition write_json (layout : Type) (fs : filesystem layout) (p : pystr)
  (encoded : outcome json) : outcome json :=
  match fs_open_w fs p with
  | Some e => Raise e
  | None =>
      doc <- encoded ;;
      match fs_put fs p doc with
      | None => Normal doc
      | Some e => Raise e
      end
  end.

(** The exception, if any, that the file system raises when [p] is opened
    and a document [doc] that the encoder produces is written to it. *)
Definition fs_write (layout : Type) (fs : filesystem layout) (p : pystr)
  (doc : json) : option exc :=
  match fs_open_w fs p with
  | Some e => Some e
  | None => fs_put fs p doc
  end.

(** How a call ends: it returns the pair [(records, errors)], where
    [records] may be [None], or an exception leaves the function. *)
Inductive completion :=
| Returns (records : option (list dict)) (errors : list err_item)
| Propagates (e : exc).

(** A call of the function: how it ends, what it logged, the document it
    wrote in full to [output_json_path], if it did, and whether it opened
    that file for writing. A file that was opened and not written in full
    is left truncated, with the part of the text that reached it. *)
Record run := mkRun {
  run_end : completion;
  run_log : list log_entry;
  run_written : option json;
  run_opened : bool }.

(** [valid_statuses = ['A', 'N', 'R']] *)
Definition valid_statuses : list pystr := [lit "A"; lit "N"; lit "R"].

(** [decimal.Decimal("-500.00")] *)
Definition balance_threshold : Dec.Decimal := Dec.mkDecimal true 50000 (-2).

(** The dict appended to [processing_errors] for a failing line. *)
Definition error_entry (line_count : Z) (error_msg line : pystr) : err_item :=
  EDict [ (lit "line_number", VInt line_count);
          (lit "error", VStr error_msg);
          (lit "raw_line", VStr (rstrip line)) ].

Section Processor.

(** The deserialized layout, the decoder
    [parse_cobol_line(line, layout_config, line_count)], [str.upper]
    (its Unicode case tables are not modelled) and the interpreter's limit
    [sys.get_int_max_str_digits()]. *)
Variable layout : Type.
Variable parse_cobol_line : pystr -> layout -> Z -> outcome dict.
Variable str_upper : pystr -> pystr.
Variable max_str_digits : N.

(** Lines 58-74: the validation and the transformations of one decoded
    record, with the warnings it logs. *)
Definition validate_and_transform (line_count : Z) (parsed_record : dict)
  : outcome (dict * list log_entry) :=
  if negb (value_in (dict_get parsed_record (lit "status_code")) valid_statuses)
  then
    status <- value_str max_str_digits (dict_get parsed_record (lit "status_code")) ;;
    Raise (mkExc ValueError (lit "Invalid status code '" ++ status ++ lit "'"))
  else
    parsed_record <-
      (if dict_contains parsed_record (lit "customer_name")
       then
         name <- dict_getitem parsed_record (lit "customer_name") ;;
         name <- value_str max_str_digits name ;;
         Normal (dict_set parsed_record (lit "customer_name")
                   (VStr (str_upper name)))
       else Normal parsed_record) ;;
    let parsed_record :=
      dict_set parsed_record (lit "is_active")
        (VBool (value_eq_str (dict_get parsed_record (lit "status_code")) (lit "A"))) in
    let balance := dict_get parsed_record (lit "account_balance") in
    below <-
      (match balance with
       | VNone => Normal false
       | _ => value_lt_Decimal balance balance_threshold
       end) ;;
    if below : bool
    then
      customer_id <-
        value_str max_str_digits (dict_get parsed_record (lit "customer_id")) ;;
      balance <- value_str max_str_digits balance ;;
      Normal (parsed_record,
              [ (WARNING,
                 lit "Line " ++ PyStr.of_Z line_count ++ lit ", ID " ++ customer_id
                 ++ lit ": Large negative balance " ++ balance) ])
    else Normal (parsed_record, []).

(** Lines 54-78, the body of the inner [try] up to the point where the
    record is appended: decoding, then the rules. *)
Definition guarded (layout_config : layout) (line_count : Z) (line : pystr)
  : outcome (dict * list log_entry) :=
  parsed_record <- parse_cobol_line line layout_config line_count ;;
  validate_and_transform line_count parsed_record.

(** Lines 50-97: the body of the [for] loop on one line. The second
    component is the exception that leaves the body, if one does. *)
Definition process_line (layout_config : layout) (s : state) (line : pystr)
  : state * option exc :=
  let n := (line_count s + 1)%Z in
  let s := mkState (processed_records s) (processing_errors s) n (logged s) in
  match strip line with
  | [] => (s, None)
  | _ :: _ =>
      match guarded layout_config n line with
      | Normal (parsed_record, warnings) =>
          (mkState (processed_records s ++ [parsed_record]) (processing_errors s)
             n (logged s ++ warnings), None)
      | Raise e =>
          if is_record_error (exc_cls e) then
            let error_msg :=
              lit "Line " ++ PyStr.of_Z n ++ lit ": Error processing record - "
              ++ exc_str e in
            (mkState (processed_records s)
               (processing_errors s ++ [error_entry n error_msg line])
               n (logged s ++ [(ERROR, error_msg)]), None)
          else if is_Exception (exc_cls e) then
            let error_msg :=
              lit "Line " ++ PyStr.of_Z n ++ lit ": Unexpected error - "
              ++ exc_str e in
            (mkState (processed_records s)
               (processing_errors s ++ [error_entry n error_msg line])
               n (logged s ++ [(ERROR, error_msg)]), None)
          else (s, Some e)
      end
  end.

(** [for line in f_data: ...] *)
Fixpoint loop (layout_config : layout) (s : state) (lines : list pystr)
  : state * option exc :=
  match lines with
  | [] => (s, None)
  | line :: rest =>
      match process_line layout_config s line with
      | (s', None) => loop layout_config s' rest
      | (s', Some e) => (s', Some e)
      end
  end.

(** Step 2, lines 46-99: the data file is opened and read line by line. *)
Definition process_data_file (fs : filesystem layout) (layout_config : layout)
  (cobol_data_path : pystr) (s : state) : state * option exc :=
  match fs_data fs cobol_data_path with
  | Raise e => (s, Some e)
  | Normal (lines, failure) =>
      let s := mkState (processed_records s) (processing_errors s) (line_count s)
                 (logged s ++ [(INFO, lit "Processing data file " ++ cobol_data_path
                                       ++ lit "...")]) in
      match loop layout_config s lines with
      | (s', None) => (s', failure)
      | (s', Some e) => (s', Some e)
      end
  end.

(** Step 3, lines 107-121: the summary, the optional JSON output and the
    return of both lists. *)
Definition output_results (fs : filesystem layout) (output_json_path : option pystr)
  (s : state) : run :=
  let records := processed_records s in
  let log :=
    logged s
    ++ [(INFO, lit "Finished processing. Parsed: "
               ++ PyStr.of_Z (Z.of_nat (List.length records))
               ++ lit " records. Errors: "
               ++ PyStr.of_Z (Z.of_nat (List.length (processing_errors s)))
               ++ lit " lines.")] in
  match output_json_path with
  | None | Some [] =>
      mkRun (Returns (Some records) (processing_errors s)) log None false
  | Some path =>
      let opened :=
        match fs_open_w fs path with
        | None => true
        | Some _ => false
        end in
      match write_json fs path (json_dump max_str_digits records) with
      | Normal doc =>
          mkRun (Returns (Some records) (processing_errors s))
            (log ++ [(INFO, lit "Successfully wrote "
                            ++ PyStr.of_Z (Z.of_nat (List.length records))
                            ++ lit " records to " ++ path)])
            (Some doc) opened
      | Raise e =>
          if is_Exception (exc_cls e) then
            mkRun (Returns (Some records)
                     (processing_errors s ++ [EText (lit "JSON Output Error: " ++ exc_str e)]))
              (log ++ [(ERROR, lit "Failed to write output JSON to '" ++ path
                               ++ lit "': " ++ exc_str e)])
              None opened
          else mkRun (Propagates e) log None opened
      end
  end.

(** [advanced_cobol_processor(layout_path, cobol_data_path, output_json_path)] *)
Definition advanced_cobol_processor (fs : filesystem layout)
  (layout_path cobol_data_path : pystr) (output_json_path : option pystr) : run :=
  match fs_layout fs layout_path with
  | Raise e =>
      if is_Exception (exc_cls e) then
        mkRun (Returns None [EText (lit "Layout Load Error: " ++ exc_str e)])
          [(ERROR, lit "Failed to load layout file '" ++ layout_path ++ lit "': "
                   ++ exc_str e)]
          None false
      else mkRun (Propagates e) [] None false
  | Normal layout_config =>
      let s := mkState [] [] 0 [(INFO, lit "Loaded layout from " ++ layout_path)] in
      match process_data_file fs layout_config cobol_data_path s with
      | (s, Some e) =>
          if is_FileNotFoundError (exc_cls e) then
            mkRun (Returns None [EText (lit "Data File Not Found: " ++ cobol_data_path)])
              (logged s ++ [(ERROR, lit "Data file not found: " ++ cobol_data_path)])
              None false
          else if is_Exception (exc_cls e) then
            mkRun (Returns None [EText (lit "File Processing Error: " ++ exc_str e)])
              (logged s ++ [(ERROR, lit "Failed during file processing: " ++ exc_str e)])
              None false
          else mkRun (Propagates e) (logged s) None false
      | (s, None) => output_results fs output_json_path s
      end
  end.

End Processor.

(** ** Vocabulary of the properties *)

(** [not line.strip()]: the line is skipped. *)
Definition is_blank (line : pystr) : bool :=
  match strip line with
  | [] => true
  | _ :: _ => false
  end.

Definition count_blank (lines : list pystr) : nat :=
  List.length (filter is_blank lines).

(** The items of the error list that report a line. *)
Definition is_line_error (e : err_item) : bool :=
  match e with
  | EDict _ => true
  | EText _ => false
  end.

(** An item of the error report of the documented shape: an object with
    exactly the fields [line_number] (integer), [error] (string) and
    [raw_line] (string). *)
Definition is_report_object (e : err_item) : Prop :=
  exists (n : Z) (msg raw : pystr),
    e = EDict [ (lit "line_number", VInt n);
                (lit "error", VStr msg);
                (lit "raw_line", VStr raw) ].

(** [raw] is [line] without its trailing whitespace: what was cut is
    whitespace only, and what is left does not end in whitespace. *)
Definition trailing_whitespace_cut (line raw : pystr) : Prop :=
  (exists w, line = raw ++ w /\ Forall (fun c => isspace c = true) w)
  /\ (forall p c, raw = p ++ [c] -> isspace c = false).

(** A record carries the derived flag: a field [is_active] that holds the
    boolean [status_code == 'A']. *)
Definition has_active_flag (r : dict) : Prop :=
  dict_contains r (lit "is_active") = true
  /\ dict_get r (lit "is_active")
     = VBool (value_eq_str (dict_get r (lit "status_code")) (lit "A")).

(** A field of a record and the member of the JSON object written for it:
    same name, and a [Decimal] written as the string [str(d)], a text that
    denotes exactly that [Decimal]. *)
Definition field_written (kv : pystr * value) (kj : pystr * json) : Prop :=
  fst kj = fst kv
  /\ forall d, snd kv = VDec d ->
       snd kj = JStr (Dec.str d) /\ read_decimal (Dec.str d) = Some d.

(** A record and the JSON value written for it: an object with one member
    per field, in order. *)
Definition record_written (r : dict) (j : json) : Prop :=
  exists fields, j = JObj fields /\ Forall2 field_written r fields.

(** The line number an item of the error list reports, if it reports one. *)
Definition entry_line_number (e : err_item) : option Z :=
  match e with
  | EDict d =>
      match dict_get d (lit "line_number") with
      | VInt n => Some n
      | _ => None
      end
  | EText _ => None
  end.

(** The line numbers an error list reports, in order. *)
Definition line_numbers (errs : list err_item) : list Z :=
  flat_map (fun e => match entry_line_number e with
                     | Some n => [n]
                     | None => []
                     end) errs.

(** The line feed that ends a line read from a text file. *)
Definition LF : pystr := [10%N].

(** The reading of [raw_line] as the original text with only the trailing
    newline stripped: the line without one final line feed, all other
    characters kept. *)
Fixpoint without_trailing_newline (line : pystr) : pystr :=
  match line with
  | [] => []
  | [c] => if (c =? 10)%N then [] else [c]
  | c :: t => c :: without_trailing_newline t
  end.

(** The state of a loop that has read [n] lines and holds nothing yet. *)
Definition fresh (n : Z) : state := mkState [] [] n [].

(** The state [s] with what [d] holds appended to it; the counter is [d]'s. *)
Definition extend (s d : state) : state :=
  mkState (processed_records s ++ processed_records d)
    (processing_errors s ++ processing_errors d)
    (line_count d) (logged s ++ logged d).

(** The state [s] after one more line was counted. *)
Definition counted (s : state) : state :=
  mkState (processed_records s) (processing_errors s) (line_count s + 1) (logged s).

(** The numbers reported so far increase and lie between the counter the
    loop started from and its counter now. *)
Definition numbered_from (lo : Z) (s : state) : Prop :=
  (lo <= line_count s)%Z
  /\ StronglySorted Z.lt (line_numbers (processing_errors s))
  /\ Forall (fun n => (lo < n <= line_count s)%Z)
       (line_numbers (processing_errors s)).




(** An item of the error list whose message names its own line:
    ["Line <line_number>: <kind> - <detail>"], of one of the two kinds the
    handlers write. *)
Definition names_its_line (e : err_item) : Prop :=
  exists (n : Z) (kind detail raw : pystr),
    e = EDict [ (lit "line_number", VInt n);
                (lit "error",
                 VStr (lit "Line " ++ PyStr.of_Z n ++ lit ": " ++ kind
                       ++ lit " - " ++ detail));
                (lit "raw_line", VStr raw) ]
    /\ (kind = lit "Error processing record" \/ kind = lit "Unexpected error").

(** The status of a record is one of the valid statuses, as a string. *)
Definition has_valid_status (r : dict) : Prop :=
  exists st, dict_get r (lit "status_code") = VStr st /\ In st valid_statuses.

(** An item of the error list and the JSON value the plain encoder writes
    for it: a string for a string, and for a per-line entry an object with
    the three members, the number as a number. *)
Definition item_written (e : err_item) (j : json) : Prop :=
  match e with
  | EText t => j = JStr t
  | EDict d =>
      exists n msg raw,
        d = [ (lit "line_number", VInt n); (lit "error", VStr msg);
              (lit "raw_line", VStr raw) ]
        /\ j = JObj [ (lit "line_number", JInt n); (lit "error", JStr msg);
                      (lit "raw_line", JStr raw) ]
  end.

(** The state in which the loop starts: nothing accumulated, and the two
    messages logged when the layout is loaded and the data file opened. *)
Definition started (layout_path cobol_data_path : pystr) : state :=
  mkState [] [] 0
    [ (INFO, lit "Loaded layout from " ++ layout_path);
      (INFO, lit "Processing data file " ++ cobol_data_path ++ lit "...") ].

(** ** The script (lines 124-169) *)

(** [json.JSONEncoder] on one value, as [json.dump(errors, f_err, indent=2)]
    uses it: a value it cannot write goes to its own [default], which
    raises. The ints of the error list are line numbers, counters whose
    text is never refused. *)
Definition encode_value_plain (v : value) : outcome json :=
  match encode_native v with
  | Some j => Normal j
  | None =>
      v' <- JSONEncoder_default v ;;
      match encode_native v' with
      | Some j => Normal j
      | None => Raise (mkExc TypeError (lit "Object of type " ++ class_name v'
                                          ++ lit " is not JSON serializable"))
      end
  end.

Fixpoint encode_fields_plain (d : dict) : outcome (list (pystr * json)) :=
  match d with
  | [] => Normal []
  | (k, v) :: t =>
      j <- encode_value_plain v ;;
      js <- encode_fields_plain t ;;
      Normal ((k, j) :: js)
  end.

(** One item of the error list: a dict becomes an object, a string a
    string. *)
Definition encode_item_plain (e : err_item) : outcome json :=
  match e with
  | EDict d => fs <- encode_fields_plain d ;; Normal (JObj fs)
  | EText s => Normal (JStr s)
  end.

Fixpoint encode_items_plain (errs : list err_item) : outcome (list json) :=
  match errs with
  | [] => Normal []
  | e :: t =>
      j <- encode_item_plain e ;;
      js <- encode_items_plain t ;;
      Normal (j :: js)
  end.

(** The document [json.dump(errors, f_err, indent=2)] writes. *)
Definition json_dump_errors (errs : list err_item) : outcome json :=
  js <- encode_items_plain errs ;;
  Normal (JArr js).

(** [os.path.join(a, b)] with POSIX separators. *)
Definition path_join (a b : pystr) : pystr :=
  match b with
  | 47%N :: _ => b
  | _ =>
      match a with
      | [] => b
      | _ :: _ => if (last a 0 =? 47)%N then a ++ b else a ++ lit "/" ++ b
      end
  end.

Inductive stream := Stdout | Stderr.

(** How the script ends: it runs to its end, [sys.exit(code)] ends it, or
    an exception nobody handles does. *)
Inductive script_end :=
| Finished
| Exited (code : Z)
| Uncaught (e : exc).

(** A run of the script: how it ends, what it printed, what the processor
    logged, and the documents written to [advanced_output.json] and to
    [processing_errors.json], if they were. *)
Record script_run := mkScript {
  script_end_of : script_end;
  script_printed : list (stream * pystr);
  script_log : list log_entry;
  script_output : option json;
  script_report : option json }.

Section Script.

Variable layout : Type.
Variable parse_cobol_line : pystr -> layout -> Z -> outcome dict.
Variable str_upper : pystr -> pystr.
Variable max_str_digits : N.

(** [str(d)] for a dict (its [repr]), which the script prints for an item
    of the error list that is a dict; not modelled. *)
Variable dict_str : dict -> pystr.

(** [f"{err}"] for an item of the error list. *)
Definition item_str (err : err_item) : pystr :=
  match err with
  | EDict d => dict_str d
  | EText s => s
  end.

(** Line 139: the call of the processor, on the paths of lines 127-129;
    [current_dir] is [os.path.dirname(__file__)]. *)
Definition script_call (fs : filesystem layout) (current_dir : pystr) : run :=
  advanced_cobol_processor parse_cobol_line str_upper max_str_digits fs
    (path_join current_dir (lit "layout.json"))
    (path_join current_dir (lit "customer_data.txt"))
    (Some (path_join current_dir (lit "advanced_output.json"))).

(** The block under [if __name__ == "__main__"]. [exists_] is
    [os.path.exists]. *)
Definition script (fs : filesystem layout) (exists_ : pystr -> bool)
  (current_dir : pystr) : script_run :=
  let layout_file := path_join current_dir (lit "layout.json") in
  let data_file := path_join current_dir (lit "customer_data.txt") in
  let error_report_file := path_join current_dir (lit "processing_errors.json") in
  if negb (exists_ layout_file) || negb (exists_ data_file) then
    mkScript (Exited 1)
      [ (Stderr, lit "Error: Prerequisite layout.json or customer_data.txt not found in script directory.");
        (Stderr, lit "Please create them before running this example.") ]
      [] None None
  else
    let r := script_call fs current_dir in
    match run_end r with
    | Propagates e => mkScript (Uncaught e) [] (run_log r) (run_written r) None
    | Returns (Some good_records) errors =>
        let printed :=
          [ (Stdout, LF ++ lit "Advanced processing complete.");
            (Stdout, lit " - Successfully processed records: "
                     ++ PyStr.of_Z (Z.of_nat (List.length good_records)));
            (Stdout, lit " - Lines with errors: "
                     ++ PyStr.of_Z (Z.of_nat (List.length errors))) ] in
        match errors with
        | [] =>
            mkScript Finished
              (printed ++ [(Stdout, lit " - No errors encountered during processing.")])
              (run_log r) (run_written r) None
        | _ :: _ =>
            let printed :=
              printed ++ [(Stdout, lit " - Saving error details to "
                                   ++ error_report_file)] in
            match write_json fs error_report_file (json_dump_errors errors) with
            | Normal doc =>
                mkScript Finished printed (run_log r) (run_written r) (Some doc)
            | Raise e =>
                if is_Exception (exc_cls e) then
                  mkScript Finished
                    (printed ++ [(Stdout, lit "  - Failed to write error report: "
                                          ++ exc_str e)])
                    (run_log r) (run_written r) None
                else mkScript (Uncaught e) printed (run_log r) (run_written r) None
            end
        end
    | Returns None errors =>
        let printed :=
          [ (Stdout, LF ++ lit "Advanced processing failed to start or complete due to critical errors.") ] in
        match errors with
        | [] => mkScript Finished printed (run_log r) (run_written r) None
        | _ :: _ =>
            mkScript Finished
              (printed ++ [(Stdout, lit "Initial errors:")]
               ++ map (fun err => (Stdout, lit "  - " ++ item_str err))
                    (firstn 5 errors))
              (run_log r) (run_written r) None
        end
    end.

End Script.

(** ** A sample decoder and file system

    Concrete instances of the parameters, for the examples below: a
    decoder that knows a handful of lines of the customer file, a small
    file system, and for [str.upper] the upper-casing of the letters a to
    z, which is what [str.upper] does on the ASCII names of these lines (it
    is not [str.upper] on other text). *)

Definition ascii_upper (s : pystr) : pystr :=
  map (fun c => if ((97 <=? c) && (c <=? 122))%N then (c - 32)%N else c) s.

Definition customer (id : Z) (status : string) (name : string) (balance : Dec.Decimal)
  : dict :=
  [ (lit "customer_id", VInt id);
    (lit "status_code", VStr (lit status));
    (lit "customer_name", VStr (lit name));
    (lit "account_balance", VDec balance) ].

(** The int [10 ** 4300], given by its decimal text: 1 and 4300 zeros. *)
Definition wide_id : Z :=
  Z.of_N (N.of_uint (Decimal.D1 (Nat.iter 4300 Decimal.D0 Decimal.Nil))).

(** A line whose first field, the id, is 1 and 4300 zeros, and the record
    a decoder makes of it: the id is the int [wide_id], of 4301 digits. *)
Definition wide_line : pystr :=
  lit "1" ++ zeros 4300 ++ lit "AAlan      -0000060000".

Definition wide_customer : dict :=
  [ (lit "customer_id", VInt wide_id);
    (lit "status_code", VStr (lit "A"));
    (lit "account_balance", VDec (Dec.mkDecimal true 60000 (-2))) ].

(** The same id on a line without a balance. *)
Definition wide_line_no_balance : pystr := lit "1" ++ zeros 4300 ++ lit "NAlan".

Definition wide_customer_no_balance : dict :=
  [ (lit "customer_id", VInt wide_id);
    (lit "status_code", VStr (lit "N")) ].

Definition sample_lines : list (pystr * outcome dict) :=
  [ (lit "00042AAda       -0000012345",
     Normal (customer 42 "A" "Ada" (Dec.mkDecimal true 12345 (-2))));
    (lit "00043NGrace     -0000060000",
     Normal (customer 43 "N" "Grace" (Dec.mkDecimal true 60000 (-2))));
    (lit "00044XLinus     +0000000100",
     Normal (customer 44 "X" "Linus" (Dec.mkDecimal false 100 (-2))));
    (lit "00045",
     Normal [ (lit "customer_id", VInt 45) ]);
    (lit "00046RKen       text",
     Normal [ (lit "customer_id", VInt 46);
              (lit "status_code", VStr (lit "R"));
              (lit "account_balance", VStr (lit "text")) ]);
    (lit "0004",
     Raise (mkExc CobolParsingError (lit "Line too short for field 'customer_id'")));
    (wide_line, Normal wide_customer);
    (wide_line_no_balance, Normal wide_customer_no_balance);
    (lit "interrupt",
     Raise (mkExc NonException (lit "KeyboardInterrupt"))) ].

Fixpoint lookup_line (line : pystr) (table : list (pystr * outcome dict))
  : outcome dict :=
  match table with
  | [] => Raise (mkExc OtherException (lit "unknown record layout"))
  | (l, r) :: t => if PyStr.eqb l line then r else lookup_line line t
  end.

Definition sample_decoder (line : pystr) (_ : unit) (_ : Z) : outcome dict :=
  lookup_line (rstrip line) sample_lines.

(** The file as it stands defines no [parse_cobol_line] (it is to be
    imported): calling the name raises [NameError], an [Exception]. *)
Definition undefined_decoder (_ : pystr) (_ : unit) (_ : Z) : outcome dict :=
  Raise (mkExc OtherException (lit "name 'parse_cobol_line' is not defined")).

Definition sample_data : list pystr :=
  [ lit "00042AAda       -0000012345" ++ LF;
    LF;
    lit "00044XLinus     +0000000100   " ++ LF;
    lit "00043NGrace     -0000060000" ++ LF;
    lit "00045" ++ LF;
    lit "   " ++ LF;
    lit "00046RKen       text" ++ LF;
    lit "0004" ].

Definition sample_fs : filesystem unit :=
  mkFs
    (fun p => if PyStr.eqb p (lit "layout.json") then Normal tt
              else Raise (mkExc FileNotFoundError
                     (lit "[Errno 2] No such file or directory: '" ++ p ++ lit "'")))
    (fun p => if PyStr.eqb p (lit "customer_data.txt") then Normal (sample_data, None)
              else if PyStr.eqb p (lit "latin1.txt")
              then Normal ([lit "00044XLinus     +0000000100" ++ LF],
                           Some (mkExc ValueError (lit "'utf-8' codec can't decode byte 0xe9")))
              else if PyStr.eqb p (lit "wide.txt")
              then Normal ([wide_line ++ LF], None)
              else if PyStr.eqb p (lit "wide_no_balance.txt")
              then Normal ([wide_line_no_balance ++ LF], None)
              else Raise (mkExc FileNotFoundError
                     (lit "[Errno 2] No such file or directory: '" ++ p ++ lit "'")))
    (fun p => if PyStr.eqb p (lit "advanced_output.json") then None
              else Some (mkExc OtherException
                     (lit "[Errno 13] Permission denied: '" ++ p ++ lit "'")))
    (fun _ _ => None).

(** The same files, with a data file whose second line interrupts the
    decoder. *)
Definition interrupted_fs : filesystem unit :=
  mkFs (fs_layout sample_fs)
    (fun _ => Normal ([ lit "00045" ++ LF; lit "interrupt" ++ LF; lit "0004" ++ LF ],
                      None))
    (fs_open_w sample_fs) (fs_put sample_fs).

(** A stand-in for the [repr] of a dict. *)
Definition sample_dict_str (_ : dict) : pystr := lit "{...}".

(** The script, started in its own directory, where both files exist. *)
Definition sample_script : script_run :=
  script sample_decoder ascii_upper default_max_str_digits sample_dict_str sample_fs
    (fun _ => true) (lit "").

Definition sample_run (output_json_path : option pystr) : run :=
  advanced_cobol_processor sample_decoder ascii_upper default_max_str_digits sample_fs
    (lit "layout.json") (lit "customer_data.txt") output_json_path.

(** The records and the error list a run returned (empty when it returned
    [None] or did not return). *)
Definition returned_records (r : run) : list dict :=
  match run_end r with
  | Returns (Some recs) _ => recs
  | _ => []
  end.

Definition returned_errors (r : run) : list err_item :=
  match run_end r with
  | Returns _ errs => errs
  | Propagates _ => []
  end.

(** The document a run wrote ([null] when it wrote none). *)
Definition written_document (r : run) : json :=
  match run_written r with
  | Some doc => doc
  | None => JNull
  end.

(** * Properties *)

Unset Implicit Arguments.

Arguments lit : simpl never.
Arguments PyStr.of_Z : simpl never.

(** ** Strings *)

Lemma pystr_eqb_eq (a b : pystr) : PyStr.eqb a b = true <-> a = b.
Proof.
  unfold PyStr.eqb. destruct (list_eq_dec N.eq_dec a b); split; congruence.
Qed.

Lemma pystr_eqb_refl (a : pystr) : PyStr.eqb a a = true.
Proof. now apply pystr_eqb_eq. Qed.

Lemma pystr_eqb_neq (a b : pystr) : a <> b -> PyStr.eqb a b = false.
Proof.
  intros H. destruct (PyStr.eqb a b) eqn:E; [|reflexivity].
  apply pystr_eqb_eq in E. contradiction.
Qed.

Lemma rstrip_nil_iff (s : pystr) :
  rstrip s = [] <-> Forall (fun c => isspace c = true) s.
Proof.
  induction s as [|c t IH]; simpl.
  - split; [constructor | reflexivity].
  - destruct (rstrip t) as [|x r] eqn:Et.
    + destruct (isspace c) eqn:Ec; split; intros H.
      * constructor; [assumption | now apply IH].
      * reflexivity.
      * discriminate.
      * inversion H as [|? ? Hc _]; cbv beta in Hc; congruence.
    + split; [discriminate|]. intros H. inversion H as [|? ? _ Ht]; subst.
      apply IH in Ht. discriminate.
Qed.

Lemma lstrip_nil_iff (s : pystr) :
  lstrip s = [] <-> Forall (fun c => isspace c = true) s.
Proof.
  induction s as [|c t IH]; simpl.
  - split; [constructor | reflexivity].
  - destruct (isspace c) eqn:Ec.
    + rewrite IH. split; intros H.
      * now constructor.
      * now inversion H.
    + split; [discriminate|]. intros H.
      inversion H as [|? ? Hc _]; cbv beta in Hc; congruence.
Qed.

Lemma lstrip_suffix (s : pystr) :
  exists w, s = w ++ lstrip s /\ Forall (fun c => isspace c = true) w.
Proof.
  induction s as [|c t [w [E F]]]; simpl.
  - exists []. split; [reflexivity | constructor].
  - destruct (isspace c) eqn:Ec.
    + exists (c :: w). split; [simpl; congruence | now constructor].
    + exists []. split; [reflexivity | constructor].
Qed.

(** A line is skipped exactly when it is empty or all whitespace. *)
Lemma strip_nil_iff (s : pystr) :
  strip s = [] <-> Forall (fun c => isspace c = true) s.
Proof.
  unfold strip. rewrite rstrip_nil_iff. split; intros H.
  - destruct (lstrip_suffix s) as [w [E F]]. rewrite E.
    apply Forall_app. split; assumption.
  - destruct (lstrip_suffix s) as [w [E F]]. rewrite E in H.
    apply Forall_app in H. apply H.
Qed.

Lemma is_blank_iff (s : pystr) :
  is_blank s = true <-> Forall (fun c => isspace c = true) s.
Proof.
  rewrite <- strip_nil_iff. unfold is_blank.
  destruct (strip s); split; congruence.
Qed.

(** [rstrip] cuts whitespace only. *)
Lemma rstrip_cuts_whitespace (s : pystr) :
  exists w, s = rstrip s ++ w /\ Forall (fun c => isspace c = true) w.
Proof.
  induction s as [|c t [w [E F]]]; simpl.
  - exists []. split; [reflexivity | constructor].
  - destruct (rstrip t) as [|x r] eqn:Et.
    + simpl in E. subst w. destruct (isspace c) eqn:Ec.
      * exists (c :: t). split; [reflexivity | now constructor].
      * exists t. split; [reflexivity | assumption].
    + exists w. split; [simpl in E |- *; congruence | assumption].
Qed.

(** What [rstrip] leaves does not end in whitespace. *)
Lemma rstrip_last_not_space (s p : pystr) (c : char) :
  rstrip s = p ++ [c] -> isspace c = false.
Proof.
  revert p. induction s as [|a t IH]; intros p; simpl.
  - destruct p; discriminate.
  - destruct (rstrip t) as [|x r] eqn:Et.
    + destruct (isspace a) eqn:Ea.
      * destruct p; discriminate.
      * intros H. destruct p as [|b p]; simpl in H.
        -- congruence.
        -- destruct p; discriminate.
    + intros H. destruct p as [|b p]; simpl in H.
      * discriminate.
      * injection H as _ H. exact (IH p H).
Qed.

Lemma rstrip_trailing_whitespace_cut (s : pystr) :
  trailing_whitespace_cut s (rstrip s).
Proof.
  split.
  - apply rstrip_cuts_whitespace.
  - intros p c. apply rstrip_last_not_space.
Qed.

(** ** Strings and decimals at work *)

Example isspace_newline : isspace 10%N = true.
Proof. reflexivity. Qed.

Example rstrip_ex : rstrip (lit "A B  ") = lit "A B".
Proof. reflexivity. Qed.

Example strip_ex : strip (lit "  A B  ") = lit "A B".
Proof. reflexivity. Qed.

Example str_12345 : Dec.str (Dec.mkDecimal false 12345 (-2)) = lit "123.45".
Proof. reflexivity. Qed.

Example str_neg500 : Dec.str (Dec.mkDecimal true 50000 (-2)) = lit "-500.00".
Proof. reflexivity. Qed.

Example str_1E3 : Dec.str (Dec.mkDecimal false 1 3) = lit "1E+3".
Proof. reflexivity. Qed.

Example str_1Em7 : Dec.str (Dec.mkDecimal false 1 (-7)) = lit "1E-7".
Proof. reflexivity. Qed.

Example str_small : Dec.str (Dec.mkDecimal true 123 (-9)) = lit "-1.23E-7".
Proof. reflexivity. Qed.

Example str_0Em7 : Dec.str (Dec.mkDecimal false 0 (-7)) = lit "0E-7".
Proof. reflexivity. Qed.

Example str_1em6 : Dec.str (Dec.mkDecimal false 1 (-6)) = lit "0.000001".
Proof. reflexivity. Qed.

Example str_zero2 : Dec.str (Dec.mkDecimal false 0 (-2)) = lit "0.00".
Proof. reflexivity. Qed.

Example read_12345 : read_decimal (lit "123.45") = Some (Dec.mkDecimal false 12345 (-2)).
Proof. reflexivity. Qed.

Example read_sci : read_decimal (lit "-1.23E-7") = Some (Dec.mkDecimal true 123 (-9)).
Proof. reflexivity. Qed.

(** ** Decimal text *)

Lemma lit_cons (a : ascii) (s : string) : lit (String a s) = N_of_ascii a :: lit s.
Proof. reflexivity. Qed.

Lemma uint_chars_digits (u : Decimal.uint) :
  Forall (fun c => is_digit c = true) (lit (NilEmpty.string_of_uint u)).
Proof.
  induction u; cbn [NilEmpty.string_of_uint]; rewrite ?lit_cons;
    constructor; try assumption; reflexivity.
Qed.

Lemma uint_chars_value_acc (u : Decimal.uint) (acc : positive) :
  number_from (N.pos acc) (lit (NilEmpty.string_of_uint u))
  = N.pos (Pos.of_uint_acc u acc).
Proof.
  revert acc. unfold number_from.
  induction u; intros acc; cbn [NilEmpty.string_of_uint Pos.of_uint_acc];
    rewrite ?lit_cons; try reflexivity;
    cbn [fold_left]; rewrite <- IHu; f_equal;
    match goal with
    | |- context [N_of_ascii ?a] =>
        let v := eval vm_compute in (N_of_ascii a) in change (N_of_ascii a) with v
    end; lia.
Qed.

Lemma uint_chars_value (u : Decimal.uint) :
  number_of (lit (NilEmpty.string_of_uint u)) = N.of_uint u.
Proof.
  unfold number_of, N.of_uint.
  induction u; cbn [NilEmpty.string_of_uint Pos.of_uint];
    rewrite ?lit_cons; try reflexivity; try exact IHu;
    apply (uint_chars_value_acc u).
Qed.

Lemma digits_eq (n : N) : digits n = lit (NilEmpty.string_of_uint (N.to_uint n)).
Proof.
  unfold digits, NilZero.string_of_uint.
  destruct (N.to_uint n) eqn:E; try reflexivity.
  destruct n; simpl in E; [discriminate|].
  exfalso. revert E. apply Unsigned.to_uint_nonnil.
Qed.

Lemma digits_are_digits (n : N) : Forall (fun c => is_digit c = true) (digits n).
Proof. rewrite digits_eq. apply uint_chars_digits. Qed.

Lemma digits_value (n : N) : number_of (digits n) = n.
Proof.
  rewrite digits_eq, uint_chars_value. apply DecimalN.Unsigned.of_to.
Qed.

Lemma digits_nonempty (n : N) : digits n <> [].
Proof.
  intros E. pose proof (digits_value n) as H. rewrite E in H.
  cbn in H. subst n. discriminate E.
Qed.

Lemma span_digits_app (ds rest : pystr) :
  Forall (fun c => is_digit c = true) ds ->
  starts_without_digit rest ->
  span_digits (ds ++ rest) = (ds, rest).
Proof.
  intros Hd Hr. induction Hd as [|c t Hc _ IH]; cbn [app span_digits].
  - destruct rest as [|c r]; [reflexivity|].
    cbn [starts_without_digit] in Hr. cbn [span_digits]. now rewrite Hr.
  - now rewrite Hc, IH.
Qed.

Lemma span_digits_all (ds : pystr) :
  Forall (fun c => is_digit c = true) ds -> span_digits ds = (ds, []).
Proof.
  intros H. rewrite <- (app_nil_r ds) at 1. now apply span_digits_app.
Qed.

Lemma number_from_zeros (k : nat) (s : pystr) :
  number_from 0 (zeros k ++ s) = number_from 0 s.
Proof. induction k; simpl; [reflexivity | exact IHk]. Qed.

Lemma zeros_digits (k : nat) : Forall (fun c => is_digit c = true) (zeros k).
Proof. induction k; simpl; constructor; auto. Qed.

Lemma zeros_length (k : nat) : List.length (zeros k) = k.
Proof. apply repeat_length. Qed.

Lemma of_Z_nonneg (z : Z) : (0 <= z)%Z -> of_Z z = digits (Z.to_N z).
Proof. destruct z; intros H; try reflexivity. lia. Qed.

Lemma of_Z_neg (z : Z) : (z < 0)%Z -> of_Z z = 45%N :: digits (Z.to_N (- z)).
Proof. destruct z; intros H; try lia. reflexivity. Qed.

Lemma read_exponent_signed (z : Z) :
  read_exponent (lit "E" ++ of_Z_signed z) = Some z.
Proof.
  unfold of_Z_signed. destruct (0 <=? z)%Z eqn:E.
  - apply Z.leb_le in E. rewrite (of_Z_nonneg _ E).
    change (read_exponent (69%N :: 43%N :: digits (Z.to_N z)) = Some z).
    cbn [read_exponent]. rewrite (span_digits_all _ (digits_are_digits _)).
    destruct (digits (Z.to_N z)) as [|c t] eqn:Ed.
    + now apply digits_nonempty in Ed.
    + rewrite <- Ed, digits_value. f_equal. lia.
  - apply Z.leb_gt in E. rewrite (of_Z_neg _ E).
    change (read_exponent (69%N :: 45%N :: digits (Z.to_N (- z))) = Some z).
    cbn [read_exponent]. rewrite (span_digits_all _ (digits_are_digits _)).
    destruct (digits (Z.to_N (- z))) as [|c t] eqn:Ed.
    + now apply digits_nonempty in Ed.
    + rewrite <- Ed, digits_value. f_equal. lia.
Qed.

Lemma exponent_text_read (ex : pystr) (e : Z) :
  exponent_text ex e ->
  read_exponent ex = Some e /\ starts_without_digit ex
  /\ match ex with 46%N :: _ => False | _ => True end.
Proof.
  intros [[-> ->]| ->].
  - repeat split.
  - split; [apply read_exponent_signed|]. split; reflexivity.
Qed.

Lemma read_sign_text (sg : bool) (c : char) (t : pystr) :
  is_digit c = true ->
  read_sign ((if sg then lit "-" else []) ++ c :: t) = (sg, c :: t).
Proof.
  intros Hc. destruct sg; [reflexivity|]. simpl.
  destruct c as [|p]; [reflexivity|].
  unfold read_sign.
  destruct (N.eq_dec (N.pos p) 45) as [E|E]; [rewrite E in Hc; discriminate|].
  do 6 (destruct p as [p|p|]; try reflexivity); congruence.
Qed.

Lemma read_with_fraction (sg : bool) (ip fp ex : pystr) (e : Z) :
  Forall (fun c => is_digit c = true) ip -> ip <> [] ->
  Forall (fun c => is_digit c = true) fp ->
  exponent_text ex e ->
  read_decimal ((if sg then lit "-" else []) ++ ip ++ (lit "." ++ fp) ++ ex)
  = Some (Dec.mkDecimal sg (number_of (ip ++ fp)) (e - Z.of_nat (List.length fp))).
Proof.
  intros Hi Hn Hf Hx. destruct (exponent_text_read _ _ Hx) as (Hr & Hs & _).
  destruct ip as [|c t]; [congruence|].
  unfold read_decimal. cbn [app]. rewrite read_sign_text by now inversion Hi.
  replace (c :: t ++ (lit "." ++ fp) ++ ex) with ((c :: t) ++ 46%N :: fp ++ ex)
    by reflexivity.
  rewrite (span_digits_app (c :: t) (46%N :: fp ++ ex) Hi) by reflexivity.
  rewrite (span_digits_app fp ex Hf Hs). now rewrite Hr.
Qed.

Lemma read_without_fraction (sg : bool) (ip ex : pystr) (e : Z) :
  Forall (fun c => is_digit c = true) ip -> ip <> [] ->
  exponent_text ex e ->
  read_decimal ((if sg then lit "-" else []) ++ ip ++ [] ++ ex)
  = Some (Dec.mkDecimal sg (number_of ip) e).
Proof.
  intros Hi Hn Hx. destruct (exponent_text_read _ _ Hx) as (Hr & Hs & Hd).
  destruct ip as [|c t]; [congruence|].
  unfold read_decimal. cbn [app]. rewrite read_sign_text by now inversion Hi.
  replace (c :: t ++ ex) with ((c :: t) ++ ex) by reflexivity.
  rewrite (span_digits_app (c :: t) ex Hi Hs).
  assert (Hex : match ex with 46%N :: t0 => span_digits t0 | _ => ([], ex) end
                = ([], ex)).
  { destruct ex as [|x r]; [reflexivity|].
    destruct x as [|p]; [reflexivity|].
    do 6 (destruct p as [p|p|]; try reflexivity); contradiction. }
  rewrite Hex, Hr, app_nil_r. f_equal. f_equal. simpl. lia.
Qed.

Lemma Forall_firstn_digits (k : nat) (s : pystr) :
  Forall (fun c => is_digit c = true) s ->
  Forall (fun c => is_digit c = true) (firstn k s).
Proof.
  intros H. rewrite <- (firstn_skipn k s) in H. now apply Forall_app in H.
Qed.

Lemma Forall_skipn_digits (k : nat) (s : pystr) :
  Forall (fun c => is_digit c = true) s ->
  Forall (fun c => is_digit c = true) (skipn k s).
Proof.
  intros H. rewrite <- (firstn_skipn k s) in H. now apply Forall_app in H.
Qed.

Lemma firstn_nonempty (k : nat) (s : pystr) :
  (0 < k)%nat -> s <> [] -> firstn k s <> [].
Proof. destruct k, s; simpl; intros; (lia || congruence). Qed.

(** [str] loses nothing: the text it writes denotes the [Decimal] it was
    given, sign, digits and exponent. *)
Lemma read_decimal_str (d : Dec.Decimal) : read_decimal (Dec.str d) = Some d.
Proof.
  destruct d as [sg coef ex]. unfold Dec.str.
  cbn [Dec.sign Dec.coefficient Dec.exponent]. cbv zeta.
  pose proof (digits_are_digits coef) as Hd.
  pose proof (digits_nonempty coef) as Hn.
  pose proof (digits_value coef) as Hv.
  generalize dependent (digits coef). intros ds Hd Hn Hv.
  assert (Hlen : (1 <= Z.of_nat (List.length ds))%Z).
  { destruct ds; [congruence | simpl; lia]. }
  remember (Z.of_nat (List.length ds)) as len eqn:Elen.
  destruct ((ex <=? 0)%Z && (-6 <? ex + len)%Z) eqn:Eplain; cbv iota.
  - apply andb_true_iff in Eplain. destruct Eplain as [E1 E2].
    apply Z.leb_le in E1. apply Z.ltb_lt in E2.
    rewrite Z.eqb_refl.
    destruct (ex + len <=? 0)%Z eqn:E3; [apply Z.leb_le in E3 | apply Z.leb_gt in E3].
    + rewrite (read_with_fraction sg (lit "0") _ [] 0%Z).
      * f_equal. f_equal.
        -- unfold number_of. change (lit "0" ++ ?x) with (48%N :: x).
           cbn [number_from fold_left].
           change (fold_left _ ?l _) with (number_from 0 l).
           now rewrite number_from_zeros.
        -- rewrite length_app, zeros_length, Nat2Z.inj_add, <- Elen. lia.
      * repeat constructor.
      * discriminate.
      * apply Forall_app. split; [apply zeros_digits | exact Hd].
      * left. split; reflexivity.
    + destruct (len <=? ex + len)%Z eqn:E4; [apply Z.leb_le in E4 | apply Z.leb_gt in E4].
      * replace (Z.to_nat (ex + len - len)) with 0%nat by lia.
        change (zeros 0) with (@nil char). rewrite (app_nil_r ds).
        rewrite (read_without_fraction sg ds [] 0%Z); auto.
        -- f_equal. f_equal; [exact Hv | lia].
        -- left. split; reflexivity.
      * rewrite (read_with_fraction sg _ _ [] 0%Z).
        -- f_equal. rewrite firstn_skipn. f_equal; [exact Hv|].
           rewrite length_skipn, Nat2Z.inj_sub, <- Elen by lia. lia.
        -- now apply Forall_firstn_digits.
        -- apply firstn_nonempty; [lia | exact Hn].
        -- now apply Forall_skipn_digits.
        -- left. split; reflexivity.
  - assert (Hsci : (ex + len =? 1)%Z = false).
    { apply Z.eqb_neq. intros H.
      apply andb_false_iff in Eplain. destruct Eplain as [E|E];
        [apply Z.leb_gt in E | apply Z.ltb_ge in E]; lia. }
    rewrite Hsci. change (1 <=? 0)%Z with false. cbv iota.
    destruct (len <=? 1)%Z eqn:E4; [apply Z.leb_le in E4 | apply Z.leb_gt in E4].
    + replace (Z.to_nat (1 - len)) with 0%nat by lia.
      change (zeros 0) with (@nil char). rewrite (app_nil_r ds).
      rewrite (read_without_fraction sg ds _ (ex + len - 1)%Z); auto.
      * f_equal. f_equal; [exact Hv | lia].
      * right. reflexivity.
    + rewrite (read_with_fraction sg _ _ _ (ex + len - 1)%Z).
      * f_equal. rewrite firstn_skipn. f_equal; [exact Hv|].
        rewrite length_skipn, Nat2Z.inj_sub, <- Elen by lia. lia.
      * now apply Forall_firstn_digits.
      * apply firstn_nonempty; [lia | exact Hn].
      * now apply Forall_skipn_digits.
      * right. reflexivity.
Qed.

(** Two different string literals are different keys. *)
Ltac lit_neq :=
  let H := fresh in
  intro H; apply pystr_eqb_eq in H; vm_compute in H; discriminate H.

(** ** Dicts *)

Lemma dict_get_set_same (d : dict) (k : pystr) (v : value) :
  dict_get (dict_set d k v) k = v.
Proof.
  induction d as [|[k' v'] t IH]; simpl.
  - now rewrite pystr_eqb_refl.
  - destruct (PyStr.eqb k' k) eqn:E; simpl; rewrite E; [reflexivity | exact IH].
Qed.

Lemma dict_get_set_other (d : dict) (k k' : pystr) (v : value) :
  k <> k' -> dict_get (dict_set d k v) k' = dict_get d k'.
Proof.
  intros Hne. induction d as [|[k0 v0] t IH]; simpl.
  - now rewrite pystr_eqb_neq.
  - destruct (PyStr.eqb k0 k) eqn:E; simpl.
    + apply pystr_eqb_eq in E. subst k0. now rewrite pystr_eqb_neq.
    + now rewrite IH.
Qed.

Lemma dict_contains_set_same (d : dict) (k : pystr) (v : value) :
  dict_contains (dict_set d k v) k = true.
Proof.
  induction d as [|[k' v'] t IH]; simpl.
  - now rewrite pystr_eqb_refl.
  - destruct (PyStr.eqb k' k) eqn:E; simpl; rewrite E; [reflexivity | exact IH].
Qed.

Lemma dict_contains_set_other (d : dict) (k k' : pystr) (v : value) :
  k <> k' -> dict_contains (dict_set d k v) k' = dict_contains d k'.
Proof.
  intros Hne. induction d as [|[k0 v0] t IH]; simpl.
  - now rewrite pystr_eqb_neq.
  - destruct (PyStr.eqb k0 k) eqn:E; simpl; [reflexivity | now rewrite IH].
Qed.

Lemma dict_get_absent (d : dict) (k : pystr) :
  dict_contains d k = false -> dict_get d k = VNone.
Proof.
  induction d as [|[k' v'] t IH]; simpl; [reflexivity|].
  destruct (PyStr.eqb k' k); simpl; [discriminate | exact IH].
Qed.

Lemma dict_getitem_present (d : dict) (k : pystr) :
  dict_contains d k = true -> dict_getitem d k = Normal (dict_get d k).
Proof. unfold dict_getitem. now intros ->. Qed.

(** ** The encoder *)





(** ** The digit limit *)

Lemma int_str_cases (m : N) (z : Z) :
  int_str m z = Normal (PyStr.of_Z z)
  \/ (m <> 0%N
      /\ (Z.max (Z.of_N m) str_digits_check_threshold < digit_count z)%Z
      /\ exists msg, int_str m z = Raise (mkExc ValueError msg)).
Proof.
  unfold int_str.
  destruct (m =? 0)%N eqn:E0; cbn [orb]; [now left|].
  destruct (digit_count z <=? Z.max (Z.of_N m) str_digits_check_threshold)%Z eqn:E;
    [now left|].
  right. apply N.eqb_neq in E0. apply Z.leb_gt in E.
  split; [exact E0|]. split; [exact E|]. eexists; reflexivity.
Qed.

Lemma int_str_raises (m : N) (z : Z) (e : exc) :
  int_str m z = Raise e -> exc_cls e = ValueError.
Proof.
  destruct (int_str_cases m z) as [->|(_ & _ & msg & ->)]; [discriminate|].
  now intros [= <-].
Qed.

Lemma int_str_unlimited (z : Z) : int_str 0 z = Normal (PyStr.of_Z z).
Proof. reflexivity. Qed.

Lemma value_str_raises (m : N) (v : value) (e : exc) :
  value_str m v = Raise e -> exc_cls e = ValueError.
Proof.
  destruct v as [|[|]|z|t|d]; cbn [value_str]; try discriminate.
  apply int_str_raises.
Qed.


(** ** Writing a file *)

Lemma write_json_normal {layout : Type} (fs : filesystem layout) (p : pystr)
  (doc : json) :
  write_json fs p (Normal doc)
  = match fs_write fs p doc with
    | None => Normal doc
    | Some e => Raise e
    end.
Proof.
  unfold write_json, fs_write. destruct (fs_open_w fs p); reflexivity.
Qed.

Lemma write_json_written {layout : Type} (fs : filesystem layout) (p : pystr)
  (encoded : outcome json) (doc : json) :
  write_json fs p encoded = Normal doc
  <-> encoded = Normal doc /\ fs_write fs p doc = None.
Proof.
  unfold write_json, fs_write. destruct (fs_open_w fs p) as [e|].
  - split; [discriminate | intros [_ [=]]].
  - destruct encoded as [doc'|e]; cbn [bind].
    + destruct (fs_put fs p doc') as [e|] eqn:Ep.
      * split; [discriminate|]. intros [[= ->] H]. congruence.
      * split; [intros [= ->]; auto | intros [[= ->] _]; reflexivity].
    + split; [discriminate | intros [[=] _]].
Qed.

(** ** States *)

Lemma extend_fresh_r (s : state) : extend s (fresh (line_count s)) = s.
Proof. destruct s; unfold extend, fresh; simpl. now rewrite !app_nil_r. Qed.

Lemma extend_assoc (s d1 d2 : state) :
  extend (extend s d1) d2 = extend s (extend d1 d2).
Proof. unfold extend; simpl. now rewrite !app_assoc. Qed.

Lemma count_blank_le (lines : list pystr) : count_blank lines <= List.length lines.
Proof. apply filter_length_le. Qed.

Lemma count_blank_cons (line : pystr) (lines : list pystr) :
  count_blank (line :: lines)
  = (if is_blank line then 1 else 0) + count_blank lines.
Proof. unfold count_blank. simpl. now destruct (is_blank line). Qed.

(** ** The loop body *)

Section Properties.

Variable layout : Type.
Variable parse_cobol_line : pystr -> layout -> Z -> outcome dict.
Variable str_upper : pystr -> pystr.
Variable max_str_digits : N.

Local Abbreviation value_str := (value_str max_str_digits).
Local Abbreviation json_dump := (json_dump max_str_digits).
Local Abbreviation validate_and_transform :=
  (validate_and_transform str_upper max_str_digits).
Local Abbreviation guarded := (guarded parse_cobol_line str_upper max_str_digits).
Local Abbreviation process_line :=
  (process_line parse_cobol_line str_upper max_str_digits).
Local Abbreviation loop := (loop parse_cobol_line str_upper max_str_digits).
Local Abbreviation process_data_file :=
  (process_data_file parse_cobol_line str_upper max_str_digits).
Local Abbreviation output_results := (output_results max_str_digits).
Local Abbreviation advanced_cobol_processor :=
  (advanced_cobol_processor parse_cobol_line str_upper max_str_digits).

(** The four ways the body of the loop ends. *)
Lemma process_line_cases (cfg : layout) (s : state) (line : pystr) :
  let n := (line_count s + 1)%Z in
  (is_blank line = true /\ process_line cfg s line = (counted s, None))
  \/ (is_blank line = false /\ exists r w,
        guarded cfg n line = Normal (r, w)
        /\ process_line cfg s line
           = (mkState (processed_records s ++ [r]) (processing_errors s) n
                (logged s ++ w), None))
  \/ (is_blank line = false /\ exists e msg,
        guarded cfg n line = Raise e
        /\ is_Exception (exc_cls e) = true
        /\ msg = lit "Line " ++ PyStr.of_Z n
                 ++ (if is_record_error (exc_cls e)
                     then lit ": Error processing record - "
                     else lit ": Unexpected error - ")
                 ++ exc_str e
        /\ process_line cfg s line
           = (mkState (processed_records s)
                (processing_errors s ++ [error_entry n msg line]) n
                (logged s ++ [(ERROR, msg)]), None))
  \/ (is_blank line = false /\ exists e,
        guarded cfg n line = Raise e
        /\ is_Exception (exc_cls e) = false
        /\ process_line cfg s line = (counted s, Some e)).
Proof.
  intros n. unfold process_line, is_blank. fold n.
  destruct (strip line) as [|c t] eqn:Es.
  - left. split; reflexivity.
  - right.
    destruct (guarded cfg n line) as [[r w]|e] eqn:Eg.
    + left. split; [reflexivity|]. exists r, w. split; reflexivity.
    + right. destruct (is_record_error (exc_cls e)) eqn:Er.
      * left. split; [reflexivity|]. eexists e, _. rewrite Er.
        repeat split; try reflexivity.
        destruct (exc_cls e); simpl in *; congruence.
      * destruct (is_Exception (exc_cls e)) eqn:Ee.
        -- left. split; [reflexivity|]. eexists e, _. rewrite Er, Ee.
           repeat split; reflexivity.
        -- right. split; [reflexivity|]. exists e.
           repeat split; try reflexivity. exact Ee.
Qed.

(** The body only reads the counter of the state and appends to the rest. *)
Lemma process_line_frame (cfg : layout) (s : state) (line : pystr) :
  process_line cfg s line
  = (extend s (fst (process_line cfg (fresh (line_count s)) line)),
     snd (process_line cfg (fresh (line_count s)) line)).
Proof.
  destruct s as [recs errs n lg].
  unfold process_line, extend, fresh; simpl.
  destruct (strip line) as [|c t]; simpl.
  - now rewrite !app_nil_r.
  - destruct (guarded cfg (n + 1)%Z line) as [[r w]|e]; simpl.
    + now rewrite !app_nil_r.
    + destruct (is_record_error (exc_cls e)); simpl.
      * now rewrite !app_nil_r.
      * destruct (is_Exception (exc_cls e)); simpl; now rewrite !app_nil_r.
Qed.

Lemma process_line_counts (cfg : layout) (s : state) (line : pystr) :
  line_count (fst (process_line cfg s line)) = (line_count s + 1)%Z.
Proof.
  destruct (process_line_cases cfg s line)
    as [[_ E]|[[_ (r & w & _ & E)]|[[_ (e & msg & _ & _ & _ & E)]|[_ (e & _ & _ & E)]]]];
    rewrite E; reflexivity.
Qed.

(** ** The loop *)

Lemma loop_app (cfg : layout) (s : state) (a b : list pystr) :
  loop cfg s (a ++ b)
  = match loop cfg s a with
    | (s', None) => loop cfg s' b
    | (s', Some e) => (s', Some e)
    end.
Proof.
  revert s. induction a as [|l a IH]; intros s; simpl.
  - reflexivity.
  - destruct (process_line cfg s l) as [s' [e|]]; [reflexivity | apply IH].
Qed.

Lemma loop_frame (cfg : layout) (s : state) (lines : list pystr) :
  loop cfg s lines
  = (extend s (fst (loop cfg (fresh (line_count s)) lines)),
     snd (loop cfg (fresh (line_count s)) lines)).
Proof.
  revert s. induction lines as [|l ls IH]; intros s; simpl.
  - now rewrite extend_fresh_r.
  - rewrite (process_line_frame cfg s l).
    pose proof (process_line_counts cfg (fresh (line_count s)) l) as Hc.
    destruct (process_line cfg (fresh (line_count s)) l) as [d [e|]]; simpl in *.
    + reflexivity.
    + rewrite (IH (extend s d)). rewrite (IH d). simpl.
      now rewrite extend_assoc.
Qed.

Lemma loop_counts (cfg : layout) (s s' : state) (lines : list pystr) :
  loop cfg s lines = (s', None) ->
  line_count s' = (line_count s + Z.of_nat (List.length lines))%Z.
Proof.
  revert s. induction lines as [|l ls IH]; intros s; simpl.
  - intros [= <-]. lia.
  - pose proof (process_line_counts cfg s l) as Hc.
    destruct (process_line cfg s l) as [s1 [e|]]; [discriminate|].
    intros H. apply IH in H. simpl in Hc. lia.
Qed.

(** An invariant of the body is an invariant of the loop. *)
Lemma loop_invariant (P : state -> Prop) (cfg : layout) :
  (forall s line s', P s -> process_line cfg s line = (s', None) -> P s') ->
  forall lines s s', P s -> loop cfg s lines = (s', None) -> P s'.
Proof.
  intros Hstep. induction lines as [|l ls IH]; intros s s' Hs; simpl.
  - now intros [= <-].
  - destruct (process_line cfg s l) as [s1 [e|]] eqn:E; [discriminate|].
    apply IH. eapply Hstep; eassumption.
Qed.

(** ** Completed runs *)

(** What [output_results] returns: the records of the state, and its errors
    with at most one string about the output file behind them. *)
Lemma output_results_inv (fs : filesystem layout) (op : option pystr) (s : state)
  (recs : option (list dict)) (errs : list err_item) :
  run_end (output_results fs op s) = Returns recs errs ->
  recs = Some (processed_records s)
  /\ exists extra,
       errs = processing_errors s ++ extra
       /\ (extra = []
           \/ exists path e,
                op = Some path
                /\ write_json fs path (json_dump (processed_records s)) = Raise e
                /\ extra = [EText (lit "JSON Output Error: " ++ exc_str e)]).
Proof.
  unfold output_results.
  destruct op as [[|c path]|]; cbn [run_end].
  - intros [= <- <-]. split; [reflexivity|]. exists []. rewrite app_nil_r. auto.
  - destruct (write_json fs (c :: path) (json_dump (processed_records s)))
      as [doc|e] eqn:Ew; cbn [run_end].
    + intros [= <- <-]. split; [reflexivity|]. exists []. rewrite app_nil_r. auto.
    + destruct (is_Exception (exc_cls e)); cbn [run_end]; [|discriminate].
      intros [= <- <-]. split; [reflexivity|]. eexists. split; [reflexivity|].
      right. exists (c :: path), e. auto.
  - intros [= <- <-]. split; [reflexivity|]. exists []. rewrite app_nil_r. auto.
Qed.

(** A run that returns records loaded the layout, read the whole data
    file, and returns what the loop accumulated over its lines. *)
Lemma run_completed_inv (fs : filesystem layout) (lp dp : pystr) (op : option pystr)
  (recs : list dict) (errs : list err_item) :
  run_end (advanced_cobol_processor fs lp dp op) = Returns (Some recs) errs ->
  exists cfg lines d extra,
    fs_layout fs lp = Normal cfg
    /\ fs_data fs dp = Normal (lines, None)
    /\ loop cfg (fresh 0) lines = (d, None)
    /\ recs = processed_records d
    /\ errs = processing_errors d ++ extra
    /\ (extra = []
        \/ exists path e,
             op = Some path
             /\ write_json fs path (json_dump recs) = Raise e
             /\ extra = [EText (lit "JSON Output Error: " ++ exc_str e)]).
Proof.
  unfold advanced_cobol_processor.
  destruct (fs_layout fs lp) as [cfg|e] eqn:El.
  2:{ destruct (is_Exception (exc_cls e)); simpl; discriminate. }
  unfold process_data_file.
  destruct (fs_data fs dp) as [[lines failure]|e] eqn:Ed.
  2:{ destruct (is_FileNotFoundError (exc_cls e)); [simpl; discriminate|].
      destruct (is_Exception (exc_cls e)); simpl; discriminate. }
  rewrite loop_frame. cbn [line_count].
  destruct (loop cfg (fresh 0) lines) as [d [e|]] eqn:Eloop; cbn [fst snd].
  { destruct (is_FileNotFoundError (exc_cls e)); [simpl; discriminate|].
    destruct (is_Exception (exc_cls e)); simpl; discriminate. }
  destruct failure as [e|].
  { destruct (is_FileNotFoundError (exc_cls e)); [simpl; discriminate|].
    destruct (is_Exception (exc_cls e)); simpl; discriminate. }
  intros H. apply output_results_inv in H.
  destruct H as [[= ->] [extra [-> Hx]]].
  exists cfg, lines, d, extra. cbn [extend processed_records processing_errors].
  repeat split; auto.
Qed.

(** ** Counting outcomes *)

Lemma error_entry_is_report_object (n : Z) (msg line : pystr) :
  is_report_object (error_entry n msg line).
Proof. exists n, msg, (rstrip line). reflexivity. Qed.

Lemma report_object_is_line_error (e : err_item) :
  is_report_object e -> is_line_error e = true.
Proof. intros (n & msg & raw & ->). reflexivity. Qed.

(** The body appends only report objects to the error list. *)
Lemma process_line_report_objects (cfg : layout) (s s' : state) (line : pystr) :
  Forall is_report_object (processing_errors s) ->
  process_line cfg s line = (s', None) ->
  Forall is_report_object (processing_errors s').
Proof.
  intros Hs.
  destruct (process_line_cases cfg s line)
    as [[_ E]|[[_ (r & w & _ & E)]|[[_ (e & msg & _ & _ & _ & E)]|[_ (e & _ & _ & E)]]]];
    rewrite E; intros [= <-]; simpl; auto.
  apply Forall_app. split; [assumption|].
  constructor; [apply error_entry_is_report_object | constructor].
Qed.

Lemma loop_report_objects (cfg : layout) (s s' : state) (lines : list pystr) :
  Forall is_report_object (processing_errors s) ->
  loop cfg s lines = (s', None) ->
  Forall is_report_object (processing_errors s').
Proof.
  apply (loop_invariant (fun s => Forall is_report_object (processing_errors s))).
  intros s0 line s1. apply process_line_report_objects.
Qed.

(** Every line read adds one to exactly one of: the records, the errors,
    the blank lines. *)
Lemma process_line_tally (cfg : layout) (s s' : state) (line : pystr) :
  process_line cfg s line = (s', None) ->
  List.length (processed_records s') + List.length (processing_errors s')
  + (if is_blank line then 1 else 0)
  = List.length (processed_records s) + List.length (processing_errors s) + 1.
Proof.
  destruct (process_line_cases cfg s line)
    as [[B E]|[[B (r & w & _ & E)]|[[B (e & msg & _ & _ & _ & E)]|[B (e & _ & _ & E)]]]];
    rewrite E, B; intros [= <-]; simpl; rewrite ?length_app; simpl; lia.
Qed.

Lemma loop_tally (cfg : layout) (s s' : state) (lines : list pystr) :
  loop cfg s lines = (s', None) ->
  List.length (processed_records s') + List.length (processing_errors s')
  + count_blank lines
  = List.length (processed_records s) + List.length (processing_errors s)
    + List.length lines.
Proof.
  revert s. induction lines as [|l ls IH]; intros s; simpl.
  - intros [= <-]. unfold count_blank. simpl. lia.
  - destruct (process_line cfg s l) as [s1 [e|]] eqn:E; [discriminate|].
    intros H. apply IH in H. apply process_line_tally in E.
    rewrite count_blank_cons. lia.
Qed.

Lemma filter_line_errors (errs : list err_item) :
  Forall is_report_object errs -> filter is_line_error errs = errs.
Proof.
  induction 1 as [|e t He _ IH]; simpl; [reflexivity|].
  rewrite (report_object_is_line_error _ He). now rewrite IH.
Qed.

(** A completed run over N lines returns as many records and per-line
    error entries as there are non-blank lines; a string about the output
    file may follow the entries. *)
Lemma run_tally (fs : filesystem layout) (lp dp : pystr) (op : option pystr)
  (lines : list pystr) (failure : option exc)
  (recs : list dict) (errs : list err_item) :
  fs_data fs dp = Normal (lines, failure) ->
  run_end (advanced_cobol_processor fs lp dp op) = Returns (Some recs) errs ->
  exists line_errs extra,
    errs = line_errs ++ extra
    /\ Forall is_report_object line_errs
    /\ List.length recs + List.length line_errs
       = List.length lines - count_blank lines
    /\ (extra = []
        \/ exists path e,
             op = Some path
             /\ extra = [EText (lit "JSON Output Error: " ++ exc_str e)]).
Proof.
  intros Hd Hrun.
  destruct (run_completed_inv _ _ _ _ _ _ Hrun)
    as (cfg & lines' & d & extra & _ & Hd' & Hloop & -> & -> & Hx).
  rewrite Hd in Hd'. injection Hd' as <- _.
  pose proof (loop_tally _ _ _ _ Hloop) as Ht. simpl in Ht.
  pose proof (loop_report_objects cfg (fresh 0) _ lines (Forall_nil _) Hloop) as Hr.
  pose proof (count_blank_le lines) as Hb.
  exists (processing_errors d), extra. repeat split; [exact Hr | lia |].
  destruct Hx as [->|(path & e & -> & _ & ->)]; [now left|].
  right. now exists path, e.
Qed.

(** C1. For a data source of N lines that the processor reads to the end,
    the number of records it returns plus the number of per-line entries of
    the error list is N minus the number of blank lines. *)
Theorem C1_records_plus_errors (fs : filesystem layout) (lp dp : pystr)
  (op : option pystr) (lines : list pystr) (failure : option exc)
  (recs : list dict) (errs : list err_item) :
  fs_data fs dp = Normal (lines, failure) ->
  run_end (advanced_cobol_processor fs lp dp op) = Returns (Some recs) errs ->
  List.length recs + List.length (filter is_line_error errs)
  = List.length lines - count_blank lines.
Proof.
  intros Hd Hrun.
  destruct (run_tally _ _ _ _ _ _ _ _ Hd Hrun)
    as (line_errs & extra & -> & Hr & Ht & Hx).
  rewrite filter_app, (filter_line_errors _ Hr).
  replace (filter is_line_error extra) with (@nil err_item).
  - now rewrite app_nil_r.
  - destruct Hx as [->|(path & e & _ & ->)]; reflexivity.
Qed.

(** Without an output path the error list holds per-line entries only, and
    the count reads on the whole list. *)
Remark records_plus_errors_no_output (fs : filesystem layout) (lp dp : pystr)
  (lines : list pystr) (failure : option exc)
  (recs : list dict) (errs : list err_item) :
  fs_data fs dp = Normal (lines, failure) ->
  run_end (advanced_cobol_processor fs lp dp None) = Returns (Some recs) errs ->
  List.length recs + List.length errs = List.length lines - count_blank lines.
Proof.
  intros Hd Hrun.
  destruct (run_tally _ _ _ _ _ _ _ _ Hd Hrun)
    as (line_errs & extra & -> & Hr & Ht & Hx).
  destruct Hx as [->|(path & e & [=] & _)]. now rewrite app_nil_r.
Qed.

(** ** Order of the error report *)

Lemma line_numbers_app (a b : list err_item) :
  line_numbers (a ++ b) = line_numbers a ++ line_numbers b.
Proof. unfold line_numbers. apply flat_map_app. Qed.

Lemma line_numbers_error_entry (n : Z) (msg line : pystr) :
  line_numbers [error_entry n msg line] = [n].
Proof. reflexivity. Qed.

Lemma StronglySorted_snoc (l : list Z) (x : Z) :
  StronglySorted Z.lt l -> Forall (fun y => (y < x)%Z) l ->
  StronglySorted Z.lt (l ++ [x]).
Proof.
  induction 1 as [|a l Hl IH Ha]; intros Hx; simpl.
  - repeat constructor.
  - inversion Hx as [|? ? Hax Hlx]; subst. constructor.
    + now apply IH.
    + apply Forall_app. split; [assumption | now constructor].
Qed.

Lemma process_line_numbered (lo : Z) (cfg : layout) (s s' : state) (line : pystr) :
  numbered_from lo s ->
  process_line cfg s line = (s', None) ->
  numbered_from lo s'.
Proof.
  intros (Hlo & Hs & Hb).
  assert (Hb' : Forall (fun n => (lo < n <= line_count s + 1)%Z)
                  (line_numbers (processing_errors s))).
  { eapply Forall_impl; [|exact Hb]. cbv beta. intros; lia. }
  destruct (process_line_cases cfg s line)
    as [[_ E]|[[_ (r & w & _ & E)]|[[_ (e & msg & _ & _ & _ & E)]|[_ (e & _ & _ & E)]]]];
    rewrite E; intros [= <-]; unfold numbered_from; simpl;
    try (repeat split; [lia | assumption | assumption]).
  rewrite line_numbers_app, line_numbers_error_entry.
  repeat split.
  - lia.
  - apply StronglySorted_snoc; [assumption|].
    eapply Forall_impl; [|exact Hb]. cbv beta. intros; lia.
  - apply Forall_app. split; [assumption|]. constructor; [lia | constructor].
Qed.

(** The per-line entries of a completed run carry increasing line numbers,
    each the number of a line of the file. *)
Theorem error_line_numbers_increase (fs : filesystem layout) (lp dp : pystr)
  (op : option pystr) (lines : list pystr) (failure : option exc)
  (recs : list dict) (errs : list err_item) :
  fs_data fs dp = Normal (lines, failure) ->
  run_end (advanced_cobol_processor fs lp dp op) = Returns (Some recs) errs ->
  StronglySorted Z.lt (line_numbers errs)
  /\ Forall (fun n => (1 <= n <= Z.of_nat (List.length lines))%Z) (line_numbers errs).
Proof.
  intros Hd Hrun.
  destruct (run_completed_inv _ _ _ _ _ _ Hrun)
    as (cfg & lines' & d & extra & _ & Hd' & Hloop & _ & -> & Hx).
  rewrite Hd in Hd'. injection Hd' as <- _.
  assert (Hinv : numbered_from 0 d).
  { revert Hloop. apply (loop_invariant (numbered_from 0)).
    - intros s0 line s1. apply process_line_numbered.
    - repeat split; simpl; [lia | constructor | constructor]. }
  destruct Hinv as (_ & Hs & Hb).
  pose proof (loop_counts _ _ _ _ Hloop) as Hc. simpl in Hc.
  assert (Hextra : line_numbers extra = []).
  { destruct Hx as [->|(path & e & _ & _ & ->)]; reflexivity. }
  rewrite line_numbers_app, Hextra, app_nil_r. split; [exact Hs|].
  eapply Forall_impl; [|exact Hb]. cbv beta. intros; lia.
Qed.

(** ** One line in a run *)

(** A completed run over [before ++ line :: after] is made of what the
    loop does on [before], what the body does on [line] at its line number,
    and what the loop does on [after] from there. *)
Lemma run_line_split (fs : filesystem layout) (lp dp : pystr) (op : option pystr)
  (cfg : layout) (before after : list pystr) (line : pystr) (failure : option exc)
  (recs : list dict) (errs : list err_item) :
  fs_layout fs lp = Normal cfg ->
  fs_data fs dp = Normal (before ++ line :: after, failure) ->
  run_end (advanced_cobol_processor fs lp dp op) = Returns (Some recs) errs ->
  let n := (Z.of_nat (List.length before) + 1)%Z in
  exists s1 d s2 extra,
    loop cfg (fresh 0) before = (s1, None)
    /\ process_line cfg (fresh (n - 1)) line = (d, None)
    /\ loop cfg (fresh n) after = (s2, None)
    /\ recs = processed_records s1 ++ processed_records d ++ processed_records s2
    /\ errs = processing_errors s1 ++ processing_errors d
              ++ processing_errors s2 ++ extra
    /\ (extra = []
        \/ exists path e,
             op = Some path
             /\ write_json fs path (json_dump recs) = Raise e
             /\ extra = [EText (lit "JSON Output Error: " ++ exc_str e)]).
Proof.
  intros Hl Hd Hrun n.
  destruct (run_completed_inv _ _ _ _ _ _ Hrun)
    as (cfg' & lines' & s & extra & Hl' & Hd' & Hloop & Hrecs & Herrs & Hx).
  rewrite Hl in Hl'. injection Hl' as <-.
  rewrite Hd in Hd'. injection Hd' as <- _.
  rewrite loop_app in Hloop.
  destruct (loop cfg (fresh 0) before) as [s1 [e|]] eqn:E1; [discriminate|].
  pose proof (loop_counts _ _ _ _ E1) as Hc1. simpl in Hc1.
  simpl in Hloop. rewrite process_line_frame in Hloop.
  pose proof (process_line_counts cfg (fresh (line_count s1)) line) as Hcd.
  destruct (process_line cfg (fresh (line_count s1)) line) as [d [e|]] eqn:Ed;
    [discriminate|].
  cbn [fst snd] in Hloop, Hcd. rewrite loop_frame in Hloop.
  cbn [extend line_count] in Hloop. cbn [fresh line_count] in Hcd.
  destruct (loop cfg (fresh (line_count d)) after) as [s2 [e|]] eqn:E2;
    [discriminate|].
  cbn [fst snd] in Hloop. injection Hloop as <-.
  replace (line_count s1) with (n - 1)%Z in Ed by (unfold n; lia).
  replace (line_count d) with n in E2 by (unfold n; lia).
  exists s1, d, s2, extra. subst recs errs. cbn [extend processed_records processing_errors].
  cbn [extend processed_records processing_errors] in Hx.
  rewrite <- !app_assoc in *. repeat split; auto.
Qed.

(** A record whose status is not one of the valid ones fails the first
    rule with a [ValueError]: the one of line 62 when the status can be
    put into the message, else the one the formatting of the message
    raises. *)
Lemma guarded_invalid_status (cfg : layout) (n : Z) (line : pystr) (r : dict) :
  parse_cobol_line line cfg n = Normal r ->
  value_in (dict_get r (lit "status_code")) valid_statuses = false ->
  guarded cfg n line
  = Raise (mkExc ValueError
      match value_str (dict_get r (lit "status_code")) with
      | Normal status => lit "Invalid status code '" ++ status ++ lit "'"
      | Raise e => exc_str e
      end).
Proof.
  intros Hp Hv. unfold guarded, validate_and_transform.
  rewrite Hp. cbn [bind]. rewrite Hv. cbn [negb].
  destruct (value_str (dict_get r (lit "status_code"))) as [status|e] eqn:Es;
    cbn [bind]; [reflexivity|].
  apply value_str_raises in Es. destruct e as [c m]. cbn [exc_cls exc_str] in *.
  now subst c.
Qed.

(** On a non-blank line whose guarded part raises a [ValueError], the
    body appends one error entry and nothing else. *)
Lemma process_line_value_error (cfg : layout) (s : state) (line m : pystr) :
  is_blank line = false ->
  guarded cfg (line_count s + 1)%Z line = Raise (mkExc ValueError m) ->
  let n := (line_count s + 1)%Z in
  let msg := lit "Line " ++ PyStr.of_Z n ++ lit ": Error processing record - " ++ m in
  process_line cfg s line
  = (mkState (processed_records s)
       (processing_errors s ++ [error_entry n msg line]) n
       (logged s ++ [(ERROR, msg)]), None).
Proof.
  intros Hb Hg. cbv zeta.
  destruct (process_line_cases cfg s line)
    as [[B _]|[[_ (r & w & G & _)]|[[_ (e & msg' & G & _ & Hm & E)]|[_ (e & G & X & _)]]]];
    try congruence.
  - rewrite Hg in G. injection G as <-. cbn [exc_cls exc_str is_record_error] in Hm.
    now subst msg'.
  - rewrite Hg in G. injection G as <-. discriminate.
Qed.

(** ** The rules *)

Lemma value_eq_str_iff (v : value) (s : pystr) :
  value_eq_str v s = true <-> v = VStr s.
Proof.
  destruct v; simpl; try (split; discriminate).
  rewrite pystr_eqb_eq. split; congruence.
Qed.

(** Lines 64-66 on a record: the name, when there is one, is replaced by
    its upper-cased text. *)
Lemma name_step (r : dict) :
  (if dict_contains r (lit "customer_name")
   then name <- dict_getitem r (lit "customer_name") ;;
        name <- value_str name ;;
        Normal (dict_set r (lit "customer_name") (VStr (str_upper name)))
   else Normal r)
  = (if dict_contains r (lit "customer_name")
     then name <- value_str (dict_get r (lit "customer_name")) ;;
          Normal (dict_set r (lit "customer_name") (VStr (str_upper name)))
     else Normal r).
Proof.
  destruct (dict_contains r (lit "customer_name")) eqn:Ec; [|reflexivity].
  now rewrite (dict_getitem_present _ _ Ec).
Qed.

(** With a valid status the rules are the name step, the flag, the balance
    check and the warning; the name step and the flag leave every other
    field as it was. *)
Lemma validate_and_transform_valid (n : Z) (r : dict) :
  value_in (dict_get r (lit "status_code")) valid_statuses = true ->
  validate_and_transform n r
  = (r1 <-
       (if dict_contains r (lit "customer_name")
        then name <- value_str (dict_get r (lit "customer_name")) ;;
             Normal (dict_set r (lit "customer_name") (VStr (str_upper name)))
        else Normal r) ;;
     let r2 :=
       dict_set r1 (lit "is_active")
         (VBool (value_eq_str (dict_get r (lit "status_code")) (lit "A"))) in
     below <-
       (match dict_get r (lit "account_balance") with
        | VNone => Normal false
        | _ => value_lt_Decimal (dict_get r (lit "account_balance")) balance_threshold
        end) ;;
     if below : bool
     then
       customer_id <- value_str (dict_get r (lit "customer_id")) ;;
       balance <- value_str (dict_get r (lit "account_balance")) ;;
       Normal (r2,
               [ (WARNING,
                  lit "Line " ++ PyStr.of_Z n ++ lit ", ID " ++ customer_id
                  ++ lit ": Large negative balance " ++ balance) ])
     else Normal (r2, [])).
Proof.
  intros Hv. unfold validate_and_transform. rewrite Hv. cbn [negb].
  rewrite name_step.
  destruct (dict_contains r (lit "customer_name")); cbv zeta.
  - destruct (value_str (dict_get r (lit "customer_name"))) as [name|e];
      cbn [bind]; [|reflexivity].
    now rewrite !dict_get_set_other by lit_neq.
  - cbn [bind]. now rewrite !dict_get_set_other by lit_neq.
Qed.

(** The rules raise a [ValueError] or a [TypeError], both [Exception]s. *)
Lemma validate_and_transform_raises (n : Z) (r : dict) (e : exc) :
  validate_and_transform n r = Raise e -> is_Exception (exc_cls e) = true.
Proof.
  assert (Hs : forall v x, value_str v = Raise x -> is_Exception (exc_cls x) = true).
  { intros v x H. now rewrite (value_str_raises _ _ _ H). }
  destruct (value_in (dict_get r (lit "status_code")) valid_statuses) eqn:Ev.
  - rewrite (validate_and_transform_valid n r Ev). cbv zeta.
    destruct (if dict_contains r (lit "customer_name") then _ else _)
      as [r1|x] eqn:E1; cbn [bind].
    + destruct (match dict_get r (lit "account_balance") with
                | VNone => Normal false
                | _ => value_lt_Decimal (dict_get r (lit "account_balance"))
                         balance_threshold
                end) as [[|]|x] eqn:Eb; cbn [bind].
      * destruct (value_str (dict_get r (lit "customer_id"))) as [i|x] eqn:Ei;
          cbn [bind]; [|intros [= <-]; exact (Hs _ _ Ei)].
        destruct (value_str (dict_get r (lit "account_balance"))) as [t|x] eqn:Et;
          cbn [bind]; [discriminate | intros [= <-]; exact (Hs _ _ Et)].
      * discriminate.
      * intros [= <-].
        destruct (dict_get r (lit "account_balance")); cbn [value_lt_Decimal] in Eb;
          try discriminate; now injection Eb as <-.
    + intros [= <-].
      destruct (dict_contains r (lit "customer_name")); [|discriminate].
      destruct (value_str (dict_get r (lit "customer_name"))) as [t|x'] eqn:Et;
        cbn [bind] in E1; [discriminate|].
      injection E1 as <-. exact (Hs _ _ Et).
  - unfold validate_and_transform. rewrite Ev. cbn [negb].
    destruct (value_str (dict_get r (lit "status_code"))) as [t|x] eqn:Et;
      cbn [bind]; intros [= <-]; [reflexivity | exact (Hs _ _ Et)].
Qed.

(** A record that passes the rules had a valid status, and is the record
    the decoder gave with its name, if it has one, upper-cased and the flag
    set. *)
Lemma validate_and_transform_normal (n : Z) (r r' : dict) (w : list log_entry) :
  validate_and_transform n r = Normal (r', w) ->
  value_in (dict_get r (lit "status_code")) valid_statuses = true
  /\ exists r1,
       (if dict_contains r (lit "customer_name")
        then exists name,
               value_str (dict_get r (lit "customer_name")) = Normal name
               /\ r1 = dict_set r (lit "customer_name") (VStr (str_upper name))
        else r1 = r)
       /\ r' = dict_set r1 (lit "is_active")
                 (VBool (value_eq_str (dict_get r (lit "status_code")) (lit "A")))
       /\ (w = []
           \/ exists customer_id balance,
                value_str (dict_get r (lit "customer_id")) = Normal customer_id
                /\ value_str (dict_get r (lit "account_balance")) = Normal balance
                /\ w = [ (WARNING,
                          lit "Line " ++ PyStr.of_Z n ++ lit ", ID " ++ customer_id
                          ++ lit ": Large negative balance " ++ balance) ]).
Proof.
  destruct (value_in (dict_get r (lit "status_code")) valid_statuses) eqn:Ev.
  2:{ unfold validate_and_transform. rewrite Ev. cbn [negb].
      destruct (value_str _); cbn [bind]; discriminate. }
  rewrite (validate_and_transform_valid n r Ev). cbv zeta.
  intros H. split; [reflexivity|].
  destruct (if dict_contains r (lit "customer_name") then _ else _)
    as [r1|x] eqn:E1; cbn [bind] in H; [|discriminate].
  exists r1. split.
  { destruct (dict_contains r (lit "customer_name")).
    - destruct (value_str (dict_get r (lit "customer_name"))) as [name|x];
        cbn [bind] in E1; [|discriminate].
      injection E1 as <-. now exists name.
    - now injection E1 as <-. }
  destruct (match dict_get r (lit "account_balance") with
            | VNone => Normal false
            | _ => value_lt_Decimal (dict_get r (lit "account_balance"))
                     balance_threshold
            end) as [[|]|x]; cbn [bind] in H; [| |discriminate].
  - destruct (value_str (dict_get r (lit "customer_id"))) as [i|x];
      cbn [bind] in H; [|discriminate].
    destruct (value_str (dict_get r (lit "account_balance"))) as [b|x];
      cbn [bind] in H; [|discriminate].
    injection H as <- <-. split; [reflexivity|]. right. now exists i, b.
  - injection H as <- <-. split; [reflexivity | now left].
Qed.

(** A record that passes the rules had a valid status, keeps it, and
    carries [is_active], true exactly for status ['A']. *)
Lemma validate_and_transform_ok (n : Z) (r r' : dict) (w : list log_entry) :
  validate_and_transform n r = Normal (r', w) ->
  value_in (dict_get r (lit "status_code")) valid_statuses = true
  /\ dict_get r' (lit "status_code") = dict_get r (lit "status_code")
  /\ dict_contains r' (lit "is_active") = true
  /\ dict_get r' (lit "is_active")
     = VBool (value_eq_str (dict_get r' (lit "status_code")) (lit "A")).
Proof.
  intros H. destruct (validate_and_transform_normal _ _ _ _ H)
    as (Hv & r1 & H1 & -> & _).
  assert (Hs : dict_get r1 (lit "status_code") = dict_get r (lit "status_code")).
  { destruct (dict_contains r (lit "customer_name")).
    - destruct H1 as (name & _ & ->). apply dict_get_set_other. lit_neq.
    - now subst r1. }
  repeat split.
  - exact Hv.
  - rewrite dict_get_set_other by lit_neq. exact Hs.
  - apply dict_contains_set_same.
  - rewrite dict_get_set_same. rewrite dict_get_set_other by lit_neq.
    now rewrite Hs.
Qed.

(** ** Rejected lines *)

(** A line on which the body appends one error entry and no record
    contributes that entry, at its place, and nothing else to a run. *)
Lemma run_rejected_line (fs : filesystem layout) (lp dp : pystr) (op : option pystr)
  (cfg : layout) (before after : list pystr) (line : pystr) (failure : option exc)
  (recs : list dict) (errs : list err_item) (entry : err_item) (lg : list log_entry) :
  let n := (Z.of_nat (List.length before) + 1)%Z in
  fs_layout fs lp = Normal cfg ->
  fs_data fs dp = Normal (before ++ line :: after, failure) ->
  run_end (advanced_cobol_processor fs lp dp op) = Returns (Some recs) errs ->
  process_line cfg (fresh (n - 1)) line = (mkState [] [entry] n lg, None) ->
  exists s1 s2 extra,
    loop cfg (fresh 0) before = (s1, None)
    /\ loop cfg (fresh n) after = (s2, None)
    /\ recs = processed_records s1 ++ processed_records s2
    /\ errs = processing_errors s1 ++ entry :: processing_errors s2 ++ extra.
Proof.
  intros n Hl Hd Hrun Hline.
  destruct (run_line_split _ _ _ _ _ _ _ _ _ _ _ Hl Hd Hrun)
    as (s1 & d & s2 & extra & E1 & Ed & E2 & -> & -> & _).
  fold n in Ed, E2. rewrite Hline in Ed. injection Ed as <-.
  exists s1, s2, extra. repeat split; assumption.
Qed.

(** C2. A non-blank line whose decoded record has a status code outside
    the allowed set contributes no record to a completed run: the records
    returned are those of the lines before and after it. It contributes one
    entry to the error list, which carries the 1-based number of the line.
    The message of the entry quotes the status; when the status is an int
    of more digits than the interpreter formats, the message is the one of
    that refusal. *)
Theorem C2_invalid_status_rejected (fs : filesystem layout) (lp dp : pystr)
  (op : option pystr) (cfg : layout) (before after : list pystr) (line : pystr)
  (failure : option exc) (r : dict) (recs : list dict) (errs : list err_item) :
  let n := (Z.of_nat (List.length before) + 1)%Z in
  fs_layout fs lp = Normal cfg ->
  fs_data fs dp = Normal (before ++ line :: after, failure) ->
  is_blank line = false ->
  parse_cobol_line line cfg n = Normal r ->
  value_in (dict_get r (lit "status_code")) valid_statuses = false ->
  run_end (advanced_cobol_processor fs lp dp op) = Returns (Some recs) errs ->
  exists s1 s2 extra,
    loop cfg (fresh 0) before = (s1, None)
    /\ loop cfg (fresh n) after = (s2, None)
    /\ recs = processed_records s1 ++ processed_records s2
    /\ errs = processing_errors s1
              ++ EDict [ (lit "line_number", VInt n);
                         (lit "error",
                          VStr (lit "Line " ++ PyStr.of_Z n
                                ++ lit ": Error processing record - "
                                ++ match value_str (dict_get r (lit "status_code")) with
                                   | Normal status =>
                                       lit "Invalid status code '" ++ status ++ lit "'"
                                   | Raise e => exc_str e
                                   end));
                         (lit "raw_line", VStr (rstrip line)) ]
              :: processing_errors s2 ++ extra.
Proof.
  intros n Hl Hd Hb Hp Hv Hrun.
  eapply run_rejected_line; try eassumption. fold n.
  pose proof (guarded_invalid_status _ _ _ _ Hp Hv) as Hg.
  replace n with (line_count (fresh (n - 1)) + 1)%Z in Hg by (simpl; lia).
  rewrite (process_line_value_error _ _ _ _ Hb Hg). cbn [fresh line_count].
  replace (n - 1 + 1)%Z with n by lia. reflexivity.
Qed.

(** C10. A non-blank line whose decoded record has no status-code field
    is rejected like one with an invalid status: it contributes no record to
    a completed run and one entry to the error list, where the status reads
    [None]. *)
Theorem C10_missing_status_rejected (fs : filesystem layout) (lp dp : pystr)
  (op : option pystr) (cfg : layout) (before after : list pystr) (line : pystr)
  (failure : option exc) (r : dict) (recs : list dict) (errs : list err_item) :
  let n := (Z.of_nat (List.length before) + 1)%Z in
  fs_layout fs lp = Normal cfg ->
  fs_data fs dp = Normal (before ++ line :: after, failure) ->
  is_blank line = false ->
  parse_cobol_line line cfg n = Normal r ->
  dict_contains r (lit "status_code") = false ->
  run_end (advanced_cobol_processor fs lp dp op) = Returns (Some recs) errs ->
  exists s1 s2 extra,
    loop cfg (fresh 0) before = (s1, None)
    /\ loop cfg (fresh n) after = (s2, None)
    /\ recs = processed_records s1 ++ processed_records s2
    /\ errs = processing_errors s1
              ++ error_entry n
                   (lit "Line " ++ PyStr.of_Z n
                    ++ lit ": Error processing record - Invalid status code 'None'")
                   line
              :: processing_errors s2 ++ extra.
Proof.
  intros n Hl Hd Hb Hp Hc Hrun.
  eapply run_rejected_line; try eassumption. fold n.
  assert (Hv : value_in (dict_get r (lit "status_code")) valid_statuses = false).
  { now rewrite (dict_get_absent _ _ Hc). }
  pose proof (guarded_invalid_status _ _ _ _ Hp Hv) as Hg.
  rewrite (dict_get_absent _ _ Hc) in Hg.
  replace n with (line_count (fresh (n - 1)) + 1)%Z in Hg by (simpl; lia).
  rewrite (process_line_value_error _ _ _ _ Hb Hg). cbn [fresh line_count].
  replace (n - 1 + 1)%Z with n by lia. reflexivity.
Qed.

(** ** Blank lines *)

(** C6. A line that is empty or holds only whitespace is counted, so the
    lines after it keep their numbers in the file, and it adds neither a
    record nor an error entry: the loop goes on from the state it had,
    with the counter one higher. *)
Theorem C6_blank_lines_counted_only (cfg : layout) (s : state)
  (before after : list pystr) (blank : pystr) :
  Forall (fun c => isspace c = true) blank ->
  loop cfg s (before ++ blank :: after)
  = match loop cfg s before with
    | (s1, None) => loop cfg (counted s1) after
    | (s1, Some e) => (s1, Some e)
    end.
Proof.
  intros Hb. apply is_blank_iff in Hb. rewrite loop_app.
  destruct (loop cfg s before) as [s1 [e|]]; [reflexivity|].
  simpl.
  destruct (process_line_cases cfg s1 blank)
    as [[_ E]|[[B _]|[[B _]|[B _]]]]; try congruence.
  now rewrite E.
Qed.

(** ** Derived flag *)

Lemma guarded_ok (cfg : layout) (n : Z) (line : pystr) (r' : dict)
  (w : list log_entry) :
  guarded cfg n line = Normal (r', w) ->
  exists r, parse_cobol_line line cfg n = Normal r
            /\ validate_and_transform n r = Normal (r', w).
Proof.
  unfold guarded. destruct (parse_cobol_line line cfg n) as [r|e]; cbn [bind].
  - intros H. exists r. split; [reflexivity | exact H].
  - discriminate.
Qed.

Lemma process_line_active_flag (cfg : layout) (s s' : state) (line : pystr) :
  Forall has_active_flag (processed_records s) ->
  process_line cfg s line = (s', None) ->
  Forall has_active_flag (processed_records s').
Proof.
  intros Hs.
  destruct (process_line_cases cfg s line)
    as [[_ E]|[[_ (r & w & G & E)]|[[_ (e & msg & _ & _ & _ & E)]|[_ (e & _ & _ & E)]]]];
    rewrite E; intros [= <-]; simpl; auto.
  apply Forall_app. split; [assumption|].
  constructor; [|constructor].
  destruct (guarded_ok _ _ _ _ _ G) as (r0 & _ & Hvt).
  destruct (validate_and_transform_ok _ _ _ _ Hvt) as (_ & _ & Hc & Hg).
  split; assumption.
Qed.

(** C8. Every record a completed run returns has a field [is_active]; it
    holds a boolean, which is true exactly when the record's status code
    is the active code ['A']. *)
Theorem C8_is_active_flag (fs : filesystem layout) (lp dp : pystr)
  (op : option pystr) (recs : list dict) (errs : list err_item) (r : dict) :
  run_end (advanced_cobol_processor fs lp dp op) = Returns (Some recs) errs ->
  In r recs ->
  dict_contains r (lit "is_active") = true
  /\ exists b, dict_get r (lit "is_active") = VBool b
               /\ (b = true <-> dict_get r (lit "status_code") = VStr (lit "A")).
Proof.
  intros Hrun Hin.
  destruct (run_completed_inv _ _ _ _ _ _ Hrun)
    as (cfg & lines & d & extra & _ & _ & Hloop & -> & _ & _).
  assert (H : Forall has_active_flag (processed_records d)).
  { revert Hloop.
    apply (loop_invariant (fun s => Forall has_active_flag (processed_records s))).
    - intros s0 line s1. apply process_line_active_flag.
    - constructor. }
  rewrite Forall_forall in H. destruct (H r Hin) as [Hc Hg].
  split; [exact Hc|]. eexists. split; [exact Hg|]. apply value_eq_str_iff.
Qed.

(** ** Low balance *)



(** ** Fatal and recoverable errors *)

Lemma guarded_raises (cfg : layout) (n : Z) (line : pystr) (e : exc) :
  guarded cfg n line = Raise e ->
  parse_cobol_line line cfg n = Raise e
  \/ is_Exception (exc_cls e) = true.
Proof.
  unfold guarded. destruct (parse_cobol_line line cfg n) as [r|e']; cbn [bind].
  - intros H. right. exact (validate_and_transform_raises _ _ _ H).
  - intros [= ->]. now left.
Qed.

(** When the decoder raises nothing but [Exception]s on a line, no
    exception leaves the body of the loop on that line. *)
Lemma process_line_contained_on (cfg : layout) (s : state) (line : pystr) :
  (forall n e, parse_cobol_line line cfg n = Raise e ->
               is_Exception (exc_cls e) = true) ->
  snd (process_line cfg s line) = None.
Proof.
  intros Hp.
  destruct (process_line_cases cfg s line)
    as [[_ E]|[[_ (r & w & _ & E)]|[[_ (e & msg & _ & _ & _ & E)]|[_ (e & G & X & E)]]]];
    rewrite E; try reflexivity.
  destruct (guarded_raises _ _ _ _ G) as [H|H]; [apply Hp in H|]; congruence.
Qed.

Lemma loop_contained_on (cfg : layout) (s : state) (lines : list pystr) :
  (forall l n e, In l lines -> parse_cobol_line l cfg n = Raise e ->
                 is_Exception (exc_cls e) = true) ->
  snd (loop cfg s lines) = None.
Proof.
  revert s. induction lines as [|l ls IH]; intros s Hp; simpl.
  - reflexivity.
  - assert (H : snd (process_line cfg s l) = None).
    { apply process_line_contained_on. intros n e. apply Hp. now left. }
    destruct (process_line cfg s l) as [s' [e|]]; [discriminate|].
    apply IH. intros l' n e Hin. apply Hp. now right.
Qed.

(** When the decoder raises nothing but [Exception]s, no exception leaves
    the body of the loop. *)
Lemma process_line_contained (cfg : layout) (s : state) (line : pystr) :
  (forall l n e, parse_cobol_line l cfg n = Raise e ->
                 is_Exception (exc_cls e) = true) ->
  snd (process_line cfg s line) = None.
Proof. intros Hp. apply process_line_contained_on. apply Hp. Qed.

Lemma loop_contained (cfg : layout) (s : state) (lines : list pystr) :
  (forall l n e, parse_cobol_line l cfg n = Raise e ->
                 is_Exception (exc_cls e) = true) ->
  snd (loop cfg s lines) = None.
Proof. intros Hp. apply loop_contained_on. intros l n e _. apply Hp. Qed.

(** The loop over [before ++ line :: after], from nothing, put together
    from its three parts. *)
Lemma loop_split (cfg : layout) (before after : list pystr) (line : pystr)
  (s1 d s2 : state) :
  loop cfg (fresh 0) before = (s1, None) ->
  process_line cfg (fresh (line_count s1)) line = (d, None) ->
  loop cfg (fresh (line_count d)) after = (s2, None) ->
  loop cfg (fresh 0) (before ++ line :: after) = (extend s1 (extend d s2), None).
Proof.
  intros E1 Ed E2. rewrite loop_app, E1. simpl.
  rewrite process_line_frame, Ed. cbn [fst snd].
  rewrite loop_frame. cbn [extend line_count]. rewrite E2. cbn [fst snd].
  now rewrite extend_assoc.
Qed.

(** With the layout loaded and the data file open, the call is the loop
    over the lines, from a state that holds nothing, and then the handlers
    of the outer [try] or the output step. *)
Lemma run_unfolded (fs : filesystem layout) (lp dp : pystr) (op : option pystr)
  (cfg : layout) (lines : list pystr) (failure : option exc) :
  fs_layout fs lp = Normal cfg ->
  fs_data fs dp = Normal (lines, failure) ->
  advanced_cobol_processor fs lp dp op
  = let s := extend (started lp dp) (fst (loop cfg (fresh 0) lines)) in
    match
      match snd (loop cfg (fresh 0) lines) with
      | Some e => Some e
      | None => failure
      end
    with
    | Some e =>
        if is_FileNotFoundError (exc_cls e) then
          mkRun (Returns None [EText (lit "Data File Not Found: " ++ dp)])
            (logged s ++ [(ERROR, lit "Data file not found: " ++ dp)]) None false
        else if is_Exception (exc_cls e) then
          mkRun (Returns None [EText (lit "File Processing Error: " ++ exc_str e)])
            (logged s ++ [(ERROR, lit "Failed during file processing: " ++ exc_str e)])
            None false
        else mkRun (Propagates e) (logged s) None false
    | None => output_results fs op s
    end.
Proof.
  intros Hl Hd. unfold advanced_cobol_processor, process_data_file.
  rewrite Hl, Hd. rewrite loop_frame. cbn [line_count].
  destruct (loop cfg (fresh 0) lines) as [d [e|]]; cbn [fst snd]; reflexivity.
Qed.

(** C5. A layout that fails to load and a data file that fails to open
    end the run with no records ([None]) and one message; a data file that
    fails while it is read ends it without records too. An [Exception]
    raised while a line is decoded or checked becomes one entry of the
    error list, and the loop goes on: when the decoder raises nothing but
    [Exception]s, the loop reads every line it is given. In a run over a
    file on whose lines the decoder raises nothing but [Exception]s, a line
    that fails does not end the run: the run returns the records of the
    lines before and after it, and its error list holds the entry of the
    line, with its line number and message, between the entries of the
    lines before and after it. *)
Theorem C5_fatal_and_recoverable (fs : filesystem layout) (lp dp : pystr)
  (op : option pystr) :
  (forall e, fs_layout fs lp = Raise e ->
             is_Exception (exc_cls e) = true ->
             run_end (advanced_cobol_processor fs lp dp op)
             = Returns None [EText (lit "Layout Load Error: " ++ exc_str e)])
  /\ (forall cfg e, fs_layout fs lp = Normal cfg ->
                    fs_data fs dp = Raise e ->
                    is_Exception (exc_cls e) = true ->
                    run_end (advanced_cobol_processor fs lp dp op)
                    = Returns None
                        [EText (if is_FileNotFoundError (exc_cls e)
                                then lit "Data File Not Found: " ++ dp
                                else lit "File Processing Error: " ++ exc_str e)])
  /\ (forall lines e recs errs,
         fs_data fs dp = Normal (lines, Some e) ->
         run_end (advanced_cobol_processor fs lp dp op) <> Returns (Some recs) errs)
  /\ (forall cfg s line e,
         is_blank line = false ->
         guarded cfg (line_count s + 1) line = Raise e ->
         is_Exception (exc_cls e) = true ->
         exists msg,
           process_line cfg s line
           = (mkState (processed_records s)
                (processing_errors s ++ [error_entry (line_count s + 1) msg line])
                (line_count s + 1) (logged s ++ [(ERROR, msg)]), None))
  /\ (forall cfg,
         (forall l n e, parse_cobol_line l cfg n = Raise e ->
                        is_Exception (exc_cls e) = true) ->
         forall s lines,
           snd (loop cfg s lines) = None
           /\ line_count (fst (loop cfg s lines))
              = (line_count s + Z.of_nat (List.length lines))%Z)
  /\ (forall cfg before after line e,
         let n := (Z.of_nat (List.length before) + 1)%Z in
         fs_layout fs lp = Normal cfg ->
         fs_data fs dp = Normal (before ++ line :: after, None) ->
         (forall l k x, In l (before ++ line :: after) ->
                        parse_cobol_line l cfg k = Raise x ->
                        is_Exception (exc_cls x) = true) ->
         is_blank line = false ->
         guarded cfg n line = Raise e ->
         exists s1 s2 msg,
           loop cfg (fresh 0) before = (s1, None)
           /\ loop cfg (fresh n) after = (s2, None)
           /\ msg = lit "Line " ++ PyStr.of_Z n
                    ++ (if is_record_error (exc_cls e)
                        then lit ": Error processing record - "
                        else lit ": Unexpected error - ")
                    ++ exc_str e
           /\ run_end (advanced_cobol_processor fs lp dp None)
              = Returns (Some (processed_records s1 ++ processed_records s2))
                  (processing_errors s1
                   ++ error_entry n msg line :: processing_errors s2)
           /\ (forall errs,
                 run_end (advanced_cobol_processor fs lp dp op) <> Returns None errs)
           /\ (forall recs errs,
                 run_end (advanced_cobol_processor fs lp dp op)
                 = Returns (Some recs) errs ->
                 recs = processed_records s1 ++ processed_records s2
                 /\ exists extra,
                      errs = processing_errors s1
                             ++ error_entry n msg line
                             :: processing_errors s2 ++ extra)).
Proof.
  split; [|split; [|split; [|split; [|split]]]].
  - intros e Hl He. unfold advanced_cobol_processor. now rewrite Hl, He.
  - intros cfg e Hl Hd He. unfold advanced_cobol_processor, process_data_file.
    rewrite Hl, Hd. destruct (is_FileNotFoundError (exc_cls e)); [reflexivity|].
    now rewrite He.
  - intros lines e recs errs Hd Hrun.
    destruct (run_completed_inv _ _ _ _ _ _ Hrun)
      as (cfg & lines' & d & extra & _ & Hd' & _).
    congruence.
  - intros cfg s line e Hb Hg He.
    destruct (process_line_cases cfg s line)
      as [[B _]|[[_ (r & w & G & _)]|[[_ (e' & msg & G & _ & _ & E)]|[_ (e' & G & X & _)]]]];
      try congruence.
    now exists msg.
  - intros cfg Hp s lines.
    pose proof (loop_contained cfg s lines Hp) as Hn.
    split; [exact Hn|].
    destruct (loop cfg s lines) as [s' [e|]] eqn:E; [discriminate|].
    exact (loop_counts _ _ _ _ E).
  - intros cfg before after line e n Hl Hd Hp Hb Hg.
    assert (H1 : snd (loop cfg (fresh 0) before) = None).
    { apply loop_contained_on. intros l k x Hin. apply Hp.
      apply in_or_app. now left. }
    assert (H2 : snd (loop cfg (fresh n) after) = None).
    { apply loop_contained_on. intros l k x Hin. apply Hp.
      apply in_or_app. right. now right. }
    destruct (loop cfg (fresh 0) before) as [s1 [x|]] eqn:E1; [discriminate|].
    destruct (loop cfg (fresh n) after) as [s2 [x|]] eqn:E2; [discriminate|].
    pose proof (loop_counts _ _ _ _ E1) as Hc1. cbn [fresh line_count] in Hc1.
    assert (Hn : (line_count s1 + 1)%Z = n) by (unfold n; lia).
    assert (He : is_Exception (exc_cls e) = true).
    { destruct (guarded_raises _ _ _ _ Hg) as [H|H]; [|exact H].
      apply (Hp line n e); [|exact H]. apply in_or_app. right. now left. }
    destruct (process_line_cases cfg (fresh (line_count s1)) line)
      as [[B _]|[[_ (r & w & G & _)]|[[_ (e' & msg & G & _ & Hm & E)]|[_ (e' & G & X & _)]]]];
      cbn [fresh line_count] in *; rewrite ?Hn in *; try congruence.
    rewrite Hg in G. injection G as <-.
    assert (Hloop : loop cfg (fresh 0) (before ++ line :: after)
                    = (extend s1 (extend (mkState [] [error_entry n msg line] n
                                            [(ERROR, msg)]) s2), None)).
    { apply loop_split; [exact E1 | exact E | exact E2]. }
    assert (Hrun : forall o,
               advanced_cobol_processor fs lp dp o
               = output_results fs o
                   (extend (started lp dp)
                      (extend s1 (extend (mkState [] [error_entry n msg line] n
                                            [(ERROR, msg)]) s2)))).
    { intros o. rewrite (run_unfolded _ _ _ _ _ _ _ Hl Hd), Hloop. reflexivity. }
    exists s1, s2, msg. split; [reflexivity|]. split; [reflexivity|].
    split; [exact Hm|]. split; [|split].
    + rewrite Hrun. reflexivity.
    + intros errs H. rewrite Hrun in H. apply output_results_inv in H.
      destruct H as [[=] _].
    + intros recs errs H. rewrite Hrun in H. apply output_results_inv in H.
      destruct H as [[= ->] (extra & -> & _)]. split; [reflexivity|].
      exists extra. cbn [extend started processing_errors app].
      now rewrite <- !app_assoc.
Qed.

(** ** The error report *)

(** C3 (amended). For a failing line, [raw_line] is the line without its
    trailing whitespace: the line feed and every other whitespace character
    at the end are cut, the rest is kept. *)
Theorem C3_raw_line_rstripped (cfg : layout) (s : state) (line : pystr) (e : exc) :
  is_blank line = false ->
  guarded cfg (line_count s + 1) line = Raise e ->
  is_Exception (exc_cls e) = true ->
  exists msg raw,
    process_line cfg s line
    = (mkState (processed_records s)
         (processing_errors s
          ++ [EDict [ (lit "line_number", VInt (line_count s + 1));
                      (lit "error", VStr msg);
                      (lit "raw_line", VStr raw) ]])
         (line_count s + 1) (logged s ++ [(ERROR, msg)]), None)
    /\ trailing_whitespace_cut line raw.
Proof.
  intros Hb Hg He.
  destruct (process_line_cases cfg s line)
    as [[B _]|[[_ (r & w & G & _)]|[[_ (e' & msg & G & _ & _ & E)]|[_ (e' & G & X & _)]]]];
    try congruence.
  exists msg, (rstrip line). split; [exact E|].
  apply rstrip_trailing_whitespace_cut.
Qed.

(** C4 (amended). The error list of a completed run is made of the entries
    of the loop, each an object with exactly the fields [line_number]
    (integer), [error] (string) and [raw_line] (string), followed by at
    most one plain string, ["JSON Output Error: ..."], which is there when
    writing the output file failed: opening the file, encoding the records
    or writing the document raised the exception the string quotes. *)
Theorem C4_error_report_shape (fs : filesystem layout) (lp dp : pystr)
  (op : option pystr) (recs : list dict) (errs : list err_item) :
  run_end (advanced_cobol_processor fs lp dp op) = Returns (Some recs) errs ->
  exists line_errs extra,
    errs = line_errs ++ extra
    /\ Forall is_report_object line_errs
    /\ (extra = []
        \/ exists path e,
             op = Some path
             /\ write_json fs path (json_dump recs) = Raise e
             /\ extra = [EText (lit "JSON Output Error: " ++ exc_str e)]).
Proof.
  intros Hrun.
  destruct (run_completed_inv _ _ _ _ _ _ Hrun)
    as (cfg & lines & d & extra & _ & _ & Hloop & _ & -> & Hx).
  exists (processing_errors d), extra. repeat split; [|exact Hx].
  exact (loop_report_objects cfg (fresh 0) _ lines (Forall_nil _) Hloop).
Qed.

(** ** The JSON output *)

Lemma run_written_inv (fs : filesystem layout) (lp dp : pystr) (op : option pystr)
  (doc : json) :
  run_written (advanced_cobol_processor fs lp dp op) = Some doc ->
  exists recs errs path,
    op = Some path
    /\ run_end (advanced_cobol_processor fs lp dp op) = Returns (Some recs) errs
    /\ json_dump recs = Normal doc
    /\ fs_write fs path doc = None.
Proof.
  unfold advanced_cobol_processor.
  destruct (fs_layout fs lp) as [cfg|e].
  2:{ destruct (is_Exception (exc_cls e)); simpl; discriminate. }
  destruct (process_data_file fs cfg dp _) as [s [e|]].
  { destruct (is_FileNotFoundError (exc_cls e)); [simpl; discriminate|].
    destruct (is_Exception (exc_cls e)); simpl; discriminate. }
  unfold output_results.
  destruct op as [[|c path]|]; try (simpl; discriminate).
  destruct (write_json fs (c :: path) (json_dump (processed_records s)))
    as [doc'|e] eqn:Hw.
  2:{ destruct (is_Exception (exc_cls e)); simpl; discriminate. }
  cbn [run_written run_end]. intros [= <-].
  apply write_json_written in Hw. destruct Hw as [Hd Hw].
  exists (processed_records s), (processing_errors s), (c :: path). auto.
Qed.

End Properties.

(** The encoder writes a [Decimal] as the string [str(d)]. *)
Lemma encode_decimal (m : N) (d : Dec.Decimal) :
  encode_value m (VDec d) = Normal (JStr (Dec.str d)).
Proof. reflexivity. Qed.

Lemma encode_fields_written (m : N) (d : dict) (fs : list (pystr * json)) :
  encode_fields m d = Normal fs -> Forall2 field_written d fs.
Proof.
  revert fs. induction d as [|[k v] t IH]; intros fs; cbn [encode_fields].
  - intros [= <-]. constructor.
  - destruct (encode_value m v) as [j|e] eqn:Ev; cbn [bind]; [|discriminate].
    destruct (encode_fields m t) as [js|e]; cbn [bind]; [|discriminate].
    intros [= <-]. constructor; [|now apply IH].
    split; [reflexivity|]. simpl. intros x ->. rewrite encode_decimal in Ev.
    split; [congruence | apply read_decimal_str].
Qed.

Lemma encode_records_written (m : N) (rs : list dict) (js : list json) :
  encode_records m rs = Normal js -> Forall2 record_written rs js.
Proof.
  revert js. induction rs as [|r t IH]; intros js; cbn [encode_records].
  - intros [= <-]. constructor.
  - destruct (encode_fields m r) as [fs|e] eqn:Ef; cbn [bind]; [|discriminate].
    destruct (encode_records m t) as [js'|e]; cbn [bind]; [|discriminate].
    intros [= <-]. constructor; [|now apply IH].
    exists fs. split; [reflexivity | now apply encode_fields_written with m].
Qed.

(** C7. The document a run writes is the array of the records it returns,
    one object per record and one member per field, in which every
    [Decimal] value stands as the string [str(d)], its decimal text; no
    number is made of it. *)
Theorem C7_decimal_as_text (layout : Type)
  (parse_cobol_line : pystr -> layout -> Z -> outcome dict)
  (str_upper : pystr -> pystr) (max_str_digits : N)
  (fs : filesystem layout) (lp dp : pystr)
  (op : option pystr) (doc : json) :
  run_written
    (advanced_cobol_processor parse_cobol_line str_upper max_str_digits fs lp dp op)
  = Some doc ->
  exists recs errs objs,
    run_end
      (advanced_cobol_processor parse_cobol_line str_upper max_str_digits fs lp dp op)
    = Returns (Some recs) errs
    /\ doc = JArr objs
    /\ Forall2 record_written recs objs.
Proof.
  intros H.
  destruct (run_written_inv _ _ _ _ _ _ _ _ _ H)
    as (recs & errs & path & _ & Hrun & Hd & _).
  unfold json_dump in Hd.
  destruct (encode_records max_str_digits recs) as [js|e] eqn:Er; cbn [bind] in Hd;
    [|discriminate].
  injection Hd as <-.
  exists recs, errs, js. repeat split; [exact Hrun|].
  now apply encode_records_written with max_str_digits.
Qed.


(** * More of the batch loop *)

Section Batch.

Variable layout : Type.
Variable parse_cobol_line : pystr -> layout -> Z -> outcome dict.
Variable str_upper : pystr -> pystr.
Variable max_str_digits : N.

Local Abbreviation value_str := (value_str max_str_digits).
Local Abbreviation json_dump := (json_dump max_str_digits).
Local Abbreviation validate_and_transform :=
  (validate_and_transform str_upper max_str_digits).
Local Abbreviation guarded := (guarded parse_cobol_line str_upper max_str_digits).
Local Abbreviation process_line :=
  (process_line parse_cobol_line str_upper max_str_digits).
Local Abbreviation loop := (loop parse_cobol_line str_upper max_str_digits).
Local Abbreviation output_results := (output_results max_str_digits).
Local Abbreviation advanced_cobol_processor :=
  (advanced_cobol_processor parse_cobol_line str_upper max_str_digits).

(** ** Batches in parts *)

(** Reading [a ++ b] is reading [a] and then, when no exception left the
    loop, reading [b] on its own from the line number [a] ends at, the
    results of [b] put behind those of [a]. *)
Theorem loop_in_two_parts (cfg : layout) (n : Z) (a b : list pystr) :
  loop cfg (fresh n) (a ++ b)
  = match loop cfg (fresh n) a with
    | (s1, None) =>
        let part := loop cfg (fresh (n + Z.of_nat (List.length a))) b in
        (extend s1 (fst part), snd part)
    | (s1, Some e) => (s1, Some e)
    end.
Proof.
  rewrite loop_app.
  destruct (loop cfg (fresh n) a) as [s1 [e|]] eqn:Ea; [reflexivity|].
  pose proof (loop_counts _ _ _ _ _ _ _ _ Ea) as Hc.
  cbn [fresh line_count] in Hc.
  rewrite (loop_frame _ _ _ _ cfg s1 b), Hc. reflexivity.
Qed.

(** The loop up to a line and the body on that line, from nothing. *)
Lemma loop_up_to_line (cfg : layout) (before after : list pystr) (line : pystr)
  (s1 : state) :
  loop cfg (fresh 0) before = (s1, None) ->
  line_count s1 = Z.of_nat (List.length before)
  /\ loop cfg (fresh 0) (before ++ line :: after)
     = match process_line cfg s1 line with
       | (s2, None) => loop cfg s2 after
       | (s2, Some e) => (s2, Some e)
       end.
Proof.
  intros E1. split.
  - pose proof (loop_counts _ _ _ _ _ _ _ _ E1) as Hc. exact Hc.
  - rewrite loop_app, E1. reflexivity.
Qed.

(** ** Exceptions that are not handled *)

(** An exception outside [Exception] that the decoder raises on a line
    leaves the function: the call returns nothing, not even the results of
    the lines before, and writes no output. *)
Theorem interrupt_propagates (fs : filesystem layout) (lp dp : pystr)
  (op : option pystr) (cfg : layout) (before after : list pystr) (line : pystr)
  (failure : option exc) (e : exc) :
  fs_layout fs lp = Normal cfg ->
  fs_data fs dp = Normal (before ++ line :: after, failure) ->
  snd (loop cfg (fresh 0) before) = None ->
  is_blank line = false ->
  parse_cobol_line line cfg (Z.of_nat (List.length before) + 1) = Raise e ->
  is_Exception (exc_cls e) = false ->
  run_end (advanced_cobol_processor fs lp dp op) = Propagates e
  /\ run_written (advanced_cobol_processor fs lp dp op) = None.
Proof.
  intros Hl Hd Hb Hnb Hp He.
  rewrite (run_unfolded _ _ _ _ _ _ _ _ _ _ _ Hl Hd).
  destruct (loop cfg (fresh 0) before) as [s1 [x|]] eqn:E1; [discriminate|].
  destruct (loop_up_to_line cfg before after line s1 E1) as [Hc ->].
  assert (Hg : guarded cfg (line_count s1 + 1) line = Raise e).
  { unfold guarded. rewrite Hc, Hp. reflexivity. }
  destruct (process_line_cases _ parse_cobol_line str_upper max_str_digits cfg s1 line)
    as [[B _]|[[_ (r & w & G & _)]|[[_ (e' & msg & G & X & _)]|[_ (e' & G & X & E)]]]];
    try congruence.
  rewrite E. rewrite Hg in G. injection G as <-.
  cbn [fst snd].
  assert (Hf : is_FileNotFoundError (exc_cls e) = false).
  { destruct (exc_cls e); simpl in *; congruence. }
  cbv zeta. rewrite Hf, He. split; reflexivity.
Qed.

(** ** Runs without records *)

(** A call that returns no records returns one message, a plain string,
    and has written no output: what the lines read before the failure gave
    is dropped. *)
Theorem fatal_run_one_message (fs : filesystem layout) (lp dp : pystr)
  (op : option pystr) (errs : list err_item) :
  run_end (advanced_cobol_processor fs lp dp op) = Returns None errs ->
  run_written (advanced_cobol_processor fs lp dp op) = None
  /\ exists msg,
       errs = [EText msg]
       /\ ((exists e, fs_layout fs lp = Raise e
                      /\ msg = lit "Layout Load Error: " ++ exc_str e)
           \/ msg = lit "Data File Not Found: " ++ dp
           \/ (exists e, msg = lit "File Processing Error: " ++ exc_str e)).
Proof.
  destruct (fs_layout fs lp) as [cfg|e] eqn:Hl.
  - destruct (fs_data fs dp) as [[lines failure]|e] eqn:Hd.
    + rewrite (run_unfolded _ _ _ _ _ _ _ _ _ _ _ Hl Hd). cbv zeta.
      destruct (match snd (loop cfg (fresh 0) lines) with
                | Some e => Some e
                | None => failure
                end) as [e|].
      * destruct (is_FileNotFoundError (exc_cls e)).
        { intros [= <-]. split; [reflexivity|]. eexists. split; [reflexivity|].
          right. now left. }
        destruct (is_Exception (exc_cls e)); [|discriminate].
        intros [= <-]. split; [reflexivity|]. eexists. split; [reflexivity|].
        right. right. now exists e.
      * intros H. apply output_results_inv in H. destruct H as [[=] _].
    + unfold advanced_cobol_processor, process_data_file. rewrite Hl, Hd.
      destruct (is_FileNotFoundError (exc_cls e)).
      { intros [= <-]. split; [reflexivity|]. eexists. split; [reflexivity|].
        right. now left. }
      destruct (is_Exception (exc_cls e)); [|discriminate].
      intros [= <-]. split; [reflexivity|]. eexists. split; [reflexivity|].
      right. right. now exists e.
  - unfold advanced_cobol_processor. rewrite Hl.
    destruct (is_Exception (exc_cls e)); [|discriminate].
    intros [= <-]. split; [reflexivity|]. eexists. split; [reflexivity|].
    left. now exists e.
Qed.

(** ** The output step *)

Lemma output_results_without_path (fs : filesystem layout) (s : state) :
  run_end (output_results fs None s)
  = Returns (Some (processed_records s)) (processing_errors s).
Proof. reflexivity. Qed.

(** The output path changes neither the records nor the per-line errors:
    a call that returns gives, without an output path, the same records and
    the same error list, up to the one string about the output file. *)
Theorem output_path_leaves_results (fs : filesystem layout) (lp dp : pystr)
  (op : option pystr) (recs : option (list dict)) (errs : list err_item) :
  run_end (advanced_cobol_processor fs lp dp op) = Returns recs errs ->
  exists errs0,
    run_end (advanced_cobol_processor fs lp dp None) = Returns recs errs0
    /\ (errs = errs0
        \/ exists e, errs = errs0 ++ [EText (lit "JSON Output Error: " ++ exc_str e)]).
Proof.
  destruct (fs_layout fs lp) as [cfg|e] eqn:Hl.
  - destruct (fs_data fs dp) as [[lines failure]|e] eqn:Hd.
    + rewrite !(run_unfolded _ _ _ _ _ _ _ _ _ _ _ Hl Hd). cbv zeta.
      destruct (match snd (loop cfg (fresh 0) lines) with
                | Some e => Some e
                | None => failure
                end) as [e|].
      * intros H. exists errs. split; [exact H | now left].
      * intros H. apply output_results_inv in H.
        destruct H as [-> (extra & -> & Hx)].
        eexists. split; [apply output_results_without_path|].
        destruct Hx as [->|(path & e & _ & _ & ->)].
        -- left. now rewrite app_nil_r.
        -- right. now exists e.
    + unfold advanced_cobol_processor, process_data_file. rewrite Hl, Hd.
      intros H. exists errs. split; [exact H | now left].
  - unfold advanced_cobol_processor. rewrite Hl.
    intros H. exists errs. split; [exact H | now left].
Qed.

(** A completed run is the output step on what the loop accumulated. *)
Lemma run_completed_output (fs : filesystem layout) (lp dp : pystr)
  (op : option pystr) (recs : list dict) (errs : list err_item) :
  run_end (advanced_cobol_processor fs lp dp op) = Returns (Some recs) errs ->
  exists cfg lines d,
    fs_data fs dp = Normal (lines, None)
    /\ loop cfg (fresh 0) lines = (d, None)
    /\ advanced_cobol_processor fs lp dp op
       = output_results fs op (extend (started lp dp) d)
    /\ recs = processed_records d.
Proof.
  intros Hrun.
  destruct (run_completed_inv _ _ _ _ _ _ _ _ _ _ Hrun)
    as (cfg & lines & d & extra & Hl & Hd & Hloop & Hrecs & _ & _).
  exists cfg, lines, d. repeat split; try assumption.
  rewrite (run_unfolded _ _ _ _ _ _ _ _ _ _ _ Hl Hd), Hloop. reflexivity.
Qed.

(** The output step with an output path: the document is written in
    full, or the error list gets the string about the failure. *)
Lemma output_results_written (fs : filesystem layout) (c : char) (path : pystr)
  (s : state) (recs : option (list dict)) (errs : list err_item) :
  run_end (output_results fs (Some (c :: path)) s) = Returns recs errs ->
  (exists doc,
     write_json fs (c :: path) (json_dump (processed_records s)) = Normal doc
     /\ run_written (output_results fs (Some (c :: path)) s) = Some doc
     /\ errs = processing_errors s)
  \/ (exists e,
        write_json fs (c :: path) (json_dump (processed_records s)) = Raise e
        /\ run_written (output_results fs (Some (c :: path)) s) = None
        /\ errs = processing_errors s
                  ++ [EText (lit "JSON Output Error: " ++ exc_str e)]).
Proof.
  unfold output_results.
  destruct (write_json fs (c :: path) (json_dump (processed_records s)))
    as [doc|e] eqn:Hw.
  - cbn [run_end run_written]. intros [= <- <-].
    left. exists doc. repeat split; reflexivity.
  - destruct (is_Exception (exc_cls e)); [|discriminate].
    cbn [run_end run_written]. intros [= <- <-].
    right. exists e. repeat split; reflexivity.
Qed.



(** ** The rules on a record with a valid status *)


(** A balance that is text is not compared: the [TypeError] of the
    comparison is caught as an unexpected error, and the record, for all
    its valid status, goes to the error list. The comparison is reached
    when the name of the record can be put into text. *)
Theorem text_balance_is_unexpected_error (cfg : layout) (s : state) (line : pystr)
  (r : dict) (t name : pystr) :
  is_blank line = false ->
  parse_cobol_line line cfg (line_count s + 1) = Normal r ->
  value_in (dict_get r (lit "status_code")) valid_statuses = true ->
  value_str (dict_get r (lit "customer_name")) = Normal name ->
  dict_get r (lit "account_balance") = VStr t ->
  let n := (line_count s + 1)%Z in
  let msg :=
    lit "Line " ++ PyStr.of_Z n ++ lit ": Unexpected error - "
    ++ lit "'<' not supported between instances of 'str' and 'decimal.Decimal'" in
  process_line cfg s line
  = (mkState (processed_records s)
       (processing_errors s ++ [error_entry n msg line]) n
       (logged s ++ [(ERROR, msg)]), None).
Proof.
  intros Hb Hp Hv Hname Hbal. cbv zeta.
  pose proof (validate_and_transform_valid str_upper max_str_digits (line_count s + 1) r Hv) as E.
  cbv zeta in E. rewrite Hname, Hbal in E.
  assert (Hg : guarded cfg (line_count s + 1) line
               = Raise (mkExc TypeError
                   (lit "'<' not supported between instances of 'str' and 'decimal.Decimal'"))).
  { unfold guarded. rewrite Hp. cbn [bind]. rewrite E.
    destruct (dict_contains r (lit "customer_name")); reflexivity. }
  destruct (process_line_cases _ parse_cobol_line str_upper max_str_digits cfg s line)
    as [[B _]|[[_ (r0 & w & G & _)]|[[_ (e & m & G & _ & Hm & X)]|[_ (e & G & Y & _)]]]];
    try congruence.
  - rewrite Hg in G. injection G as <-.
    cbn [exc_cls exc_str is_record_error] in Hm. now subst m.
  - rewrite Hg in G. injection G as <-. discriminate.
Qed.

(** A record with a valid status, a name that can be put into text, and no
    balance or a decimal balance not below the threshold, is accepted in
    silence: it is appended to the records, and neither the error list nor
    the log changes. *)
Theorem quiet_balance_accepted (cfg : layout) (s : state) (line : pystr) (r : dict)
  (name : pystr) :
  is_blank line = false ->
  parse_cobol_line line cfg (line_count s + 1) = Normal r ->
  value_in (dict_get r (lit "status_code")) valid_statuses = true ->
  value_str (dict_get r (lit "customer_name")) = Normal name ->
  (dict_contains r (lit "account_balance") = false
   \/ exists d, dict_get r (lit "account_balance") = VDec d
                /\ Dec.ltb d balance_threshold = false) ->
  exists r',
    process_line cfg s line
    = (mkState (processed_records s ++ [r']) (processing_errors s)
         (line_count s + 1) (logged s), None)
    /\ dict_get r' (lit "account_balance") = dict_get r (lit "account_balance").
Proof.
  intros Hb Hp Hv Hname Hq.
  pose proof (validate_and_transform_valid str_upper max_str_digits (line_count s + 1) r Hv) as E.
  cbv zeta in E. rewrite Hname in E.
  assert (Hvt : exists r2,
             validate_and_transform (line_count s + 1) r = Normal (r2, [])
             /\ dict_get r2 (lit "account_balance")
                = dict_get r (lit "account_balance")).
  { rewrite E.
    assert (Hq' : match dict_get r (lit "account_balance") with
                  | VNone => Normal false
                  | _ => value_lt_Decimal (dict_get r (lit "account_balance"))
                           balance_threshold
                  end = Normal false).
    { destruct Hq as [Hc|(d & Hd & Hlt)].
      - now rewrite (dict_get_absent _ _ Hc).
      - rewrite Hd. cbn [value_lt_Decimal]. now rewrite Hlt. }
    rewrite Hq'.
    destruct (dict_contains r (lit "customer_name")); cbn [bind];
      eexists; (split; [reflexivity|]);
      now rewrite !dict_get_set_other by lit_neq. }
  destruct Hvt as (r2 & Hvt & H2).
  assert (Hg : guarded cfg (line_count s + 1) line = Normal (r2, [])).
  { unfold guarded. rewrite Hp. cbn [bind]. exact Hvt. }
  destruct (process_line_cases _ parse_cobol_line str_upper max_str_digits cfg s line)
    as [[B _]|[[_ (r0 & w & G & X)]|[[_ (e & m & G & _)]|[_ (e & G & _)]]]];
    try congruence.
  rewrite Hg in G. injection G as <- <-. rewrite app_nil_r in X.
  exists r2. split; [exact X | exact H2].
Qed.

(** The rules touch two fields only: every other field of a record that
    passes them is there, or not, as the decoder gave it. *)
Theorem rules_keep_other_fields (n : Z) (r r' : dict) (w : list log_entry)
  (k : pystr) :
  validate_and_transform n r = Normal (r', w) ->
  k <> lit "customer_name" -> k <> lit "is_active" ->
  dict_get r' k = dict_get r k /\ dict_contains r' k = dict_contains r k.
Proof.
  intros H Hk1 Hk2.
  assert (Hne1 : lit "customer_name" <> k) by congruence.
  assert (Hne2 : lit "is_active" <> k) by congruence.
  destruct (validate_and_transform_normal _ _ _ _ _ _ H)
    as (_ & r1 & H1 & -> & _).
  rewrite dict_get_set_other, dict_contains_set_other by assumption.
  destruct (dict_contains r (lit "customer_name")).
  - destruct H1 as (name & _ & ->).
    rewrite dict_get_set_other, dict_contains_set_other by assumption.
    split; reflexivity.
  - subst r1. split; reflexivity.
Qed.

(** ** What a completed run holds *)

Lemma value_in_valid (v : value) (l : list pystr) :
  value_in v l = true -> exists st, v = VStr st /\ In st l.
Proof.
  unfold value_in. intros H. apply existsb_exists in H.
  destruct H as (st & Hin & Heq). apply value_eq_str_iff in Heq.
  exists st. split; assumption.
Qed.

Lemma process_line_valid_status (cfg : layout) (s s' : state) (line : pystr) :
  Forall has_valid_status (processed_records s) ->
  process_line cfg s line = (s', None) ->
  Forall has_valid_status (processed_records s').
Proof.
  intros Hs.
  destruct (process_line_cases _ parse_cobol_line str_upper max_str_digits cfg s line)
    as [[_ E]|[[_ (r & w & G & E)]|[[_ (e & msg & _ & _ & _ & E)]|[_ (e & _ & _ & E)]]]];
    rewrite E; intros [= <-]; simpl; auto.
  apply Forall_app. split; [assumption|].
  constructor; [|constructor].
  destruct (guarded_ok _ _ _ _ _ _ _ _ _ G) as (r0 & _ & Hvt).
  destruct (validate_and_transform_ok _ _ _ _ _ _ Hvt) as (Hv & Hst & _).
  destruct (value_in_valid _ _ Hv) as (st & Hget & Hin).
  exists st. split; [congruence | exact Hin].
Qed.

(** Every record a completed run returns has a status code that is one
    of ['A'], ['N'] and ['R']. *)
Theorem returned_records_have_valid_status (fs : filesystem layout) (lp dp : pystr)
  (op : option pystr) (recs : list dict) (errs : list err_item) :
  run_end (advanced_cobol_processor fs lp dp op) = Returns (Some recs) errs ->
  Forall has_valid_status recs.
Proof.
  intros Hrun.
  destruct (run_completed_inv _ _ _ _ _ _ _ _ _ _ Hrun)
    as (cfg & lines & d & extra & _ & _ & Hloop & -> & _ & _).
  revert Hloop.
  apply (loop_invariant _ parse_cobol_line str_upper max_str_digits
           (fun s => Forall has_valid_status (processed_records s))).
  - intros s0 line s1. apply process_line_valid_status.
  - constructor.
Qed.

Lemma process_line_names_lines (cfg : layout) (s s' : state) (line : pystr) :
  Forall names_its_line (processing_errors s) ->
  process_line cfg s line = (s', None) ->
  Forall names_its_line (processing_errors s').
Proof.
  intros Hs.
  destruct (process_line_cases _ parse_cobol_line str_upper max_str_digits cfg s line)
    as [[_ E]|[[_ (r & w & _ & E)]|[[_ (e & msg & _ & _ & Hm & E)]|[_ (e & _ & _ & E)]]]];
    rewrite E; intros [= <-]; simpl; auto.
  apply Forall_app. split; [assumption|].
  constructor; [|constructor]. subst msg.
  destruct (is_record_error (exc_cls e)).
  - exists (line_count s + 1)%Z, (lit "Error processing record"), (exc_str e),
      (rstrip line).
    split; [reflexivity | now left].
  - exists (line_count s + 1)%Z, (lit "Unexpected error"), (exc_str e),
      (rstrip line).
    split; [reflexivity | now right].
Qed.

(** In a completed run the message of every per-line entry starts with
    ["Line "], the number in the entry's own [line_number], and [": "],
    and goes on with one of the two kinds of error. *)
Theorem error_entries_name_their_line (fs : filesystem layout) (lp dp : pystr)
  (op : option pystr) (recs : list dict) (errs : list err_item) :
  run_end (advanced_cobol_processor fs lp dp op) = Returns (Some recs) errs ->
  exists line_errs extra,
    errs = line_errs ++ extra
    /\ Forall names_its_line line_errs
    /\ Forall (fun e => is_line_error e = false) extra.
Proof.
  intros Hrun.
  destruct (run_completed_inv _ _ _ _ _ _ _ _ _ _ Hrun)
    as (cfg & lines & d & extra & _ & _ & Hloop & _ & -> & Hx).
  exists (processing_errors d), extra. repeat split.
  - revert Hloop.
    apply (loop_invariant _ parse_cobol_line str_upper max_str_digits
             (fun s => Forall names_its_line (processing_errors s))).
    + intros s0 line s1. apply process_line_names_lines.
    + constructor.
  - destruct Hx as [->|(path & e & _ & _ & ->)]; repeat constructor.
Qed.

(** ** Errors and the log *)







(** A run that returns no records returns one string. *)
Lemma run_without_records_shape (fs : filesystem layout) (lp dp : pystr)
  (op : option pystr) (errs : list err_item) :
  run_end (advanced_cobol_processor fs lp dp op) = Returns None errs ->
  run_written (advanced_cobol_processor fs lp dp op) = None
  /\ exists msg, errs = [EText msg].
Proof.
  destruct (fs_layout fs lp) as [cfg|e] eqn:Hl.
  - destruct (fs_data fs dp) as [[lines failure]|e] eqn:Hd.
    + rewrite (run_unfolded _ _ _ _ _ _ _ _ _ _ _ Hl Hd). cbv zeta.
      destruct (match snd (loop cfg (fresh 0) lines) with
                | Some e => Some e
                | None => failure
                end) as [e|].
      * destruct (is_FileNotFoundError (exc_cls e));
          [|destruct (is_Exception (exc_cls e)); [|discriminate]];
          intros [= <-]; (split; [reflexivity | eexists; reflexivity]).
      * intros H. apply output_results_inv in H. destruct H as [[=] _].
    + unfold advanced_cobol_processor, process_data_file. rewrite Hl, Hd.
      destruct (is_FileNotFoundError (exc_cls e));
        [|destruct (is_Exception (exc_cls e)); [|discriminate]];
        intros [= <-]; (split; [reflexivity | eexists; reflexivity]).
  - unfold advanced_cobol_processor. rewrite Hl.
    destruct (is_Exception (exc_cls e)); [|discriminate].
    intros [= <-]. split; [reflexivity | eexists; reflexivity].
Qed.

(** Whatever a call returns as its error list is made of per-line
    objects and plain strings. *)
Lemma returned_items_shape (fs : filesystem layout) (lp dp : pystr)
  (op : option pystr) (recs : option (list dict)) (errs : list err_item) :
  run_end (advanced_cobol_processor fs lp dp op) = Returns recs errs ->
  Forall (fun e => is_report_object e \/ exists t, e = EText t) errs.
Proof.
  destruct recs as [recs|]; intros Hrun.
  - destruct (run_completed_inv _ _ _ _ _ _ _ _ _ _ Hrun)
      as (cfg & lines & d & extra & _ & _ & Hloop & _ & -> & Hx).
    pose proof (loop_report_objects _ _ _ _ cfg (fresh 0) _ lines (Forall_nil _) Hloop)
      as Hobj.
    apply Forall_app. split.
    + eapply Forall_impl; [|exact Hobj]. intros x Hxo. now left.
    + destruct Hx as [->|(path & e & _ & _ & ->)];
        [constructor|].
      constructor; [|constructor]. right. eexists; reflexivity.
  - destruct (run_without_records_shape _ _ _ _ _ Hrun) as (_ & msg & ->).
    constructor; [|constructor]. right. eexists; reflexivity.
Qed.

End Batch.

(** * The error report and the script *)

(** The plain encoder writes every per-line object and every string. *)
Lemma encode_items_plain_written (errs : list err_item) :
  Forall (fun e => is_report_object e \/ exists t, e = EText t) errs ->
  exists items, encode_items_plain errs = Normal items
                /\ Forall2 item_written errs items.
Proof.
  induction 1 as [|e t He _ (items & IH & IH2)].
  - exists []. split; [reflexivity | constructor].
  - destruct He as [(n & msg & raw & ->)|(txt & ->)].
    + eexists. split.
      * cbn [encode_items_plain encode_item_plain encode_fields_plain
               encode_value_plain encode_native bind]. rewrite IH. reflexivity.
      * constructor; [|exact IH2]. exists n, msg, raw. split; reflexivity.
    + eexists. split.
      * cbn [encode_items_plain encode_item_plain bind]. rewrite IH. reflexivity.
      * constructor; [reflexivity | exact IH2].
Qed.

Section ScriptProperties.

Variable layout : Type.
Variable parse_cobol_line : pystr -> layout -> Z -> outcome dict.
Variable str_upper : pystr -> pystr.
Variable max_str_digits : N.
Variable dict_str : dict -> pystr.

Local Abbreviation advanced_cobol_processor :=
  (advanced_cobol_processor parse_cobol_line str_upper max_str_digits).
Local Abbreviation script :=
  (script parse_cobol_line str_upper max_str_digits dict_str).

(** The error list of any call that returns can be written by the plain
    encoder, as the script does: no item holds a [Decimal], so
    [json.dump(errors)] raises no [TypeError]; it writes one value per
    item, in order. *)
Theorem error_list_is_serializable (fs : filesystem layout) (lp dp : pystr)
  (op : option pystr) (recs : option (list dict)) (errs : list err_item) :
  run_end (advanced_cobol_processor fs lp dp op) = Returns recs errs ->
  exists items,
    json_dump_errors errs = Normal (JArr items)
    /\ Forall2 item_written errs items.
Proof.
  intros Hrun.
  pose proof (returned_items_shape _ _ _ _ _ _ _ _ _ _ Hrun) as Hshape.
  destruct (encode_items_plain_written errs Hshape) as (items & Henc & Hw).
  exists items. split; [|exact Hw].
  unfold json_dump_errors. now rewrite Henc.
Qed.

Lemma path_join_nonempty (a b : pystr) : b <> [] -> path_join a b <> [].
Proof.
  intros Hb. unfold path_join.
  assert (Hrest : match a with
                  | [] => b
                  | _ :: _ => if (last a 0 =? 47)%N then a ++ b
                              else a ++ lit "/" ++ b
                  end <> []).
  { destruct a as [|x a']; [exact Hb|].
    destruct (last (x :: a') 0 =? 47)%N; discriminate. }
  destruct b as [|c b']; [congruence|].
  destruct c as [|q]; [exact Hrest|].
  do 6 (destruct q as [q|q|]; try exact Hrest); discriminate.
Qed.

Lemma script_call_completed (fs : filesystem layout) (dir : pystr)
  (recs : list dict) (errs : list err_item) :
  run_end (script_call parse_cobol_line str_upper max_str_digits fs dir) = Returns (Some recs) errs ->
  exists lines line_errs,
    fs_data fs (path_join dir (lit "customer_data.txt")) = Normal (lines, None)
    /\ Forall is_report_object line_errs
    /\ List.length recs + List.length line_errs
       = List.length lines - count_blank lines
    /\ ((run_written (script_call parse_cobol_line str_upper max_str_digits fs dir) <> None
         /\ errs = line_errs)
        \/ (exists e,
              run_written (script_call parse_cobol_line str_upper max_str_digits fs dir) = None
              /\ errs = line_errs
                        ++ [EText (lit "JSON Output Error: " ++ exc_str e)])).
Proof.
  unfold script_call. intros Hrun.
  destruct (path_join dir (lit "advanced_output.json")) as [|c path] eqn:Ep.
  { exfalso. revert Ep. apply path_join_nonempty. discriminate. }
  destruct (run_completed_output _ _ _ _ _ _ _ _ _ _ Hrun)
    as (cfg & lines & d & Hd & Hloop & Heq & ->).
  pose proof (loop_report_objects _ _ _ _ cfg (fresh 0) _ lines (Forall_nil _) Hloop)
    as Hobj.
  pose proof (loop_tally _ _ _ _ _ _ _ _ Hloop) as Ht. simpl in Ht.
  pose proof (count_blank_le lines) as Hle.
  rewrite Heq in Hrun |- *.
  exists lines, (processing_errors d). repeat split; [exact Hd | exact Hobj | lia |].
  destruct (output_results_written _ _ _ _ _ _ _ _ Hrun)
    as [(doc & _ & Hwr & ->)|(e & _ & Hwr & ->)].
  - left. split; [|reflexivity].
    intros Hn. discriminate (eq_trans (eq_sym Hwr) Hn).
  - right. exists e. split; [exact Hwr | reflexivity].
Qed.

(** The two counts the script prints add up to the number of non-blank
    lines when the output file was written, and to one more when it was
    not: the string about the output file is counted among the "lines with
    errors". *)
Theorem script_counts (fs : filesystem layout) (exists_ : pystr -> bool)
  (dir : pystr) (lines : list pystr) (failure : option exc)
  (recs : list dict) (errs : list err_item) :
  exists_ (path_join dir (lit "layout.json")) = true ->
  exists_ (path_join dir (lit "customer_data.txt")) = true ->
  fs_data fs (path_join dir (lit "customer_data.txt")) = Normal (lines, failure) ->
  run_end (script_call parse_cobol_line str_upper max_str_digits fs dir) = Returns (Some recs) errs ->
  (exists rest,
     script_printed (script fs exists_ dir)
     = [ (Stdout, LF ++ lit "Advanced processing complete.");
         (Stdout, lit " - Successfully processed records: "
                  ++ PyStr.of_Z (Z.of_nat (List.length recs)));
         (Stdout, lit " - Lines with errors: "
                  ++ PyStr.of_Z (Z.of_nat (List.length errs))) ] ++ rest)
  /\ List.length recs + List.length errs
     = List.length lines - count_blank lines
       + match script_output (script fs exists_ dir) with
         | Some _ => 0
         | None => 1
         end.
Proof.
  intros Hx1 Hx2 Hd Hrun.
  destruct (script_call_completed _ _ _ _ Hrun)
    as (lines' & line_errs & Hd' & _ & Ht & Hout).
  rewrite Hd in Hd'. injection Hd' as <- _.
  unfold script. rewrite Hx1, Hx2. cbn [negb orb]. cbv zeta. rewrite Hrun.
  assert (Hsum : List.length recs + List.length errs
                 = List.length lines - count_blank lines
                   + match run_written (script_call parse_cobol_line str_upper max_str_digits fs dir) with
                     | Some _ => 0
                     | None => 1
                     end).
  { destruct Hout as [(Hw & ->)|(e & Hw & ->)].
    - destruct (run_written _); [lia | congruence].
    - rewrite Hw, length_app. simpl. lia. }
  destruct errs as [|e0 errs'].
  - cbn [script_printed script_output]. split; [eexists; reflexivity | exact Hsum].
  - destruct (write_json fs (path_join dir (lit "processing_errors.json"))
                (json_dump_errors (e0 :: errs'))) as [doc|e].
    + cbn [script_printed script_output]. split; [|exact Hsum].
      eexists. reflexivity.
    + destruct (is_Exception (exc_cls e)); cbn [script_printed script_output];
        (split; [|exact Hsum]); eexists; rewrite <- ?app_assoc; reflexivity.
Qed.

(** The error report: with no item in the error list the script writes no
    report; otherwise it writes one value per item, in order, to
    [processing_errors.json], and only the file system can make that fail.
    A failure that is an [Exception] is printed and the script goes on to
    its end. *)
Theorem script_error_report (fs : filesystem layout) (exists_ : pystr -> bool)
  (dir : pystr) (recs : list dict) (errs : list err_item) :
  exists_ (path_join dir (lit "layout.json")) = true ->
  exists_ (path_join dir (lit "customer_data.txt")) = true ->
  run_end (script_call parse_cobol_line str_upper max_str_digits fs dir) = Returns (Some recs) errs ->
  match errs with
  | [] =>
      script_report (script fs exists_ dir) = None
      /\ script_end_of (script fs exists_ dir) = Finished
  | _ :: _ =>
      exists items,
        Forall2 item_written errs items
        /\ match fs_write fs (path_join dir (lit "processing_errors.json"))
                   (JArr items) with
           | None =>
               script_report (script fs exists_ dir) = Some (JArr items)
               /\ script_end_of (script fs exists_ dir) = Finished
           | Some e =>
               script_report (script fs exists_ dir) = None
               /\ script_end_of (script fs exists_ dir)
                  = if is_Exception (exc_cls e) then Finished else Uncaught e
           end
  end.
Proof.
  intros Hx1 Hx2 Hrun.
  pose proof (returned_items_shape _ _ _ _ _ _ _ _ _ _ Hrun) as Hshape.
  unfold script. rewrite Hx1, Hx2. cbn [negb orb]. cbv zeta. rewrite Hrun.
  destruct errs as [|e0 errs'].
  - split; reflexivity.
  - destruct (encode_items_plain_written _ Hshape) as (items & Henc & Hw).
    exists items. split; [exact Hw|].
    unfold json_dump_errors. rewrite Henc. cbn [bind]. rewrite write_json_normal.
    destruct (fs_write fs (path_join dir (lit "processing_errors.json")) (JArr items))
      as [e|].
    + destruct (is_Exception (exc_cls e)); split; reflexivity.
    + split; reflexivity.
Qed.

(** When the processor returns no records the script prints the header,
    ["Initial errors:"] and the one message there is, and writes nothing;
    the slice [errors[:5]] never cuts anything off. *)
Theorem script_critical_failure (fs : filesystem layout) (exists_ : pystr -> bool)
  (dir : pystr) (errs : list err_item) :
  exists_ (path_join dir (lit "layout.json")) = true ->
  exists_ (path_join dir (lit "customer_data.txt")) = true ->
  run_end (script_call parse_cobol_line str_upper max_str_digits fs dir) = Returns None errs ->
  exists msg,
    errs = [EText msg]
    /\ script fs exists_ dir
       = mkScript Finished
           [ (Stdout, LF ++ lit "Advanced processing failed to start or complete due to critical errors.");
             (Stdout, lit "Initial errors:");
             (Stdout, lit "  - " ++ msg) ]
           (run_log (script_call parse_cobol_line str_upper max_str_digits fs dir)) None None.
Proof.
  intros Hx1 Hx2 Hrun.
  destruct (run_without_records_shape _ _ _ _ _ _ _ _ _ Hrun) as (Hw & msg & ->).
  exists msg. split; [reflexivity|].
  unfold script. rewrite Hx1, Hx2. cbn [negb orb]. cbv zeta. rewrite Hrun.
  cbn [firstn map app item_str]. f_equal. exact Hw.
Qed.

End ScriptProperties.

(** * The sample run

    The theorems above at the sample file: eight lines, of which two are
    blank, two give records and four give error entries. *)

Example sample_run_errors :
  map (fun e => match e with
                | EDict d => dict_get d (lit "error")
                | EText t => VStr t
                end) (returned_errors (sample_run None))
  = [ VStr (lit "Line 3: Error processing record - Invalid status code 'X'");
      VStr (lit "Line 5: Error processing record - Invalid status code 'None'");
      VStr (lit "Line 7: Unexpected error - '<' not supported between instances of 'str' and 'decimal.Decimal'");
      VStr (lit "Line 8: Error processing record - Line too short for field 'customer_id'") ].
Proof. vm_compute. reflexivity. Qed.

(** An exception outside [Exception] is not handled: it leaves the loop, and
    the lines after it are not read. *)
Example sample_interrupt :
  loop sample_decoder ascii_upper default_max_str_digits tt (fresh 0)
    [lit "00045" ++ LF; lit "interrupt" ++ LF; lit "0004" ++ LF]
  = (mkState []
       [error_entry 1
          (lit "Line 1: Error processing record - Invalid status code 'None'")
          (lit "00045" ++ LF)]
       2
       [(ERROR, lit "Line 1: Error processing record - Invalid status code 'None'")],
     Some (mkExc NonException (lit "KeyboardInterrupt"))).
Proof. vm_compute. reflexivity. Qed.

(** Without a decoder every non-blank line is reported as an unexpected
    error, and the run still completes. *)
Example sample_without_decoder :
  loop undefined_decoder ascii_upper default_max_str_digits tt (fresh 0) [lit "00042A" ++ LF; LF]
  = (mkState []
       [error_entry 1
          (lit "Line 1: Unexpected error - name 'parse_cobol_line' is not defined")
          (lit "00042A" ++ LF)]
       2
       [(ERROR,
         lit "Line 1: Unexpected error - name 'parse_cobol_line' is not defined")],
     None).
Proof. vm_compute. reflexivity. Qed.

Example sample_run_log_warning :
  In (WARNING, lit "Line 4, ID 43: Large negative balance -600.00")
     (run_log (sample_run None)).
Proof. vm_compute. tauto. Qed.

Lemma C1_witness :
  List.length (returned_records (sample_run None))
  + List.length (filter is_line_error (returned_errors (sample_run None)))
  = List.length sample_data - count_blank sample_data.
Proof.
  refine (C1_records_plus_errors unit sample_decoder ascii_upper default_max_str_digits sample_fs
            (lit "layout.json") (lit "customer_data.txt") None sample_data None
            (returned_records (sample_run None)) (returned_errors (sample_run None))
            _ _);
    vm_compute; reflexivity.
Defined.

Lemma C2_witness :
  exists s1 s2 extra,
    loop sample_decoder ascii_upper default_max_str_digits tt (fresh 0) (firstn 2 sample_data) = (s1, None)
    /\ loop sample_decoder ascii_upper default_max_str_digits tt (fresh 3) (skipn 3 sample_data) = (s2, None)
    /\ returned_records (sample_run None)
       = processed_records s1 ++ processed_records s2
    /\ returned_errors (sample_run None)
       = processing_errors s1
         ++ EDict [ (lit "line_number", VInt 3);
                    (lit "error",
                     VStr (lit "Line " ++ PyStr.of_Z 3
                           ++ lit ": Error processing record - "
                           ++ match value_str default_max_str_digits (VStr (lit "X")) with
                              | Normal status =>
                                  lit "Invalid status code '" ++ status ++ lit "'"
                              | Raise e => exc_str e
                              end));
                    (lit "raw_line",
                     VStr (rstrip (lit "00044XLinus     +0000000100   " ++ LF))) ]
         :: processing_errors s2 ++ extra.
Proof.
  refine (C2_invalid_status_rejected unit sample_decoder ascii_upper default_max_str_digits sample_fs
            (lit "layout.json") (lit "customer_data.txt") None tt
            (firstn 2 sample_data) (skipn 3 sample_data)
            (lit "00044XLinus     +0000000100   " ++ LF) None
            (customer 44 "X" "Linus" (Dec.mkDecimal false 100 (-2)))
            (returned_records (sample_run None)) (returned_errors (sample_run None))
            _ _ _ _ _ _);
    vm_compute; reflexivity.
Defined.

(** Line 3 of the sample, ["00044XLinus     +0000000100   \n"], fails, and
    its [raw_line] has lost the three spaces before the line feed, which
    cutting the line feed alone would have kept. *)
Lemma C3_counterexample :
  let line := lit "00044XLinus     +0000000100   " ++ LF in
  exists s' d,
    process_line sample_decoder ascii_upper default_max_str_digits tt (fresh 2) line = (s', None)
    /\ processing_errors s' = [EDict d]
    /\ dict_get d (lit "raw_line") = VStr (lit "00044XLinus     +0000000100")
    /\ without_trailing_newline line = lit "00044XLinus     +0000000100   "
    /\ dict_get d (lit "raw_line") <> VStr (without_trailing_newline line).
Proof.
  eexists _, _. repeat split; try (vm_compute; reflexivity).
  vm_compute. discriminate.
Qed.

Lemma C3_witness :
  exists msg raw,
    process_line sample_decoder ascii_upper default_max_str_digits tt (fresh 2)
      (lit "00044XLinus     +0000000100   " ++ LF)
    = (mkState (processed_records (fresh 2))
         (processing_errors (fresh 2)
          ++ [EDict [ (lit "line_number", VInt (line_count (fresh 2) + 1));
                      (lit "error", VStr msg);
                      (lit "raw_line", VStr raw) ]])
         (line_count (fresh 2) + 1) (logged (fresh 2) ++ [(ERROR, msg)]), None)
    /\ trailing_whitespace_cut (lit "00044XLinus     +0000000100   " ++ LF) raw.
Proof.
  refine (C3_raw_line_rstripped unit sample_decoder ascii_upper default_max_str_digits tt (fresh 2)
            (lit "00044XLinus     +0000000100   " ++ LF)
            (mkExc ValueError (lit "Invalid status code 'X'")) _ _ _);
    vm_compute; reflexivity.
Defined.

(** With an output path that cannot be written, the sample run completes
    and its error list ends in a plain string. *)
Lemma C4_counterexample :
  exists recs errs,
    run_end (sample_run (Some (lit "/readonly/out.json"))) = Returns (Some recs) errs
    /\ last errs (EText [])
       = EText (lit "JSON Output Error: [Errno 13] Permission denied: '/readonly/out.json'")
    /\ ~ Forall is_report_object errs.
Proof.
  eexists _, _. split; [vm_compute; reflexivity|]. split; [vm_compute; reflexivity|].
  intros H. rewrite Forall_forall in H.
  destruct (H (EText (lit "JSON Output Error: [Errno 13] Permission denied: '/readonly/out.json'")))
    as (n & msg & raw & E).
  - vm_compute. tauto.
  - discriminate E.
Qed.

Lemma C4_witness :
  exists line_errs extra,
    returned_errors (sample_run (Some (lit "/readonly/out.json"))) = line_errs ++ extra
    /\ Forall is_report_object line_errs
    /\ (extra = []
        \/ exists path e,
             Some (lit "/readonly/out.json") = Some path
             /\ write_json sample_fs path
                  (json_dump default_max_str_digits
                     (returned_records (sample_run (Some (lit "/readonly/out.json")))))
                = Raise e
             /\ extra = [EText (lit "JSON Output Error: " ++ exc_str e)]).
Proof.
  refine (C4_error_report_shape unit sample_decoder ascii_upper default_max_str_digits sample_fs
            (lit "layout.json") (lit "customer_data.txt")
            (Some (lit "/readonly/out.json"))
            (returned_records (sample_run (Some (lit "/readonly/out.json"))))
            (returned_errors (sample_run (Some (lit "/readonly/out.json")))) _);
    vm_compute; reflexivity.
Defined.

Lemma C5_witness :
  run_end (advanced_cobol_processor sample_decoder ascii_upper default_max_str_digits
             sample_fs (lit "no_layout.json") (lit "customer_data.txt") None)
  = Returns None
      [EText (lit "Layout Load Error: "
              ++ lit "[Errno 2] No such file or directory: 'no_layout.json'")]
  /\ run_end (advanced_cobol_processor sample_decoder ascii_upper
                default_max_str_digits sample_fs
                (lit "layout.json") (lit "no_data.txt") None)
     = Returns None [EText (lit "Data File Not Found: " ++ lit "no_data.txt")]
  /\ run_end (advanced_cobol_processor sample_decoder ascii_upper
                default_max_str_digits sample_fs
                (lit "layout.json") (lit "latin1.txt") None)
     <> Returns (Some []) []
  /\ (exists msg,
        process_line sample_decoder ascii_upper default_max_str_digits tt (fresh 7)
          (lit "0004")
        = (mkState [] [error_entry 8 msg (lit "0004")] 8 [(ERROR, msg)], None))
  /\ exists s1 s2 msg,
       loop sample_decoder ascii_upper default_max_str_digits tt (fresh 0)
         (firstn 6 sample_data) = (s1, None)
       /\ loop sample_decoder ascii_upper default_max_str_digits tt (fresh 7)
            (skipn 7 sample_data) = (s2, None)
       /\ msg = lit "Line " ++ PyStr.of_Z 7 ++ lit ": Unexpected error - "
                ++ lit "'<' not supported between instances of 'str' and 'decimal.Decimal'"
       /\ run_end (sample_run None)
          = Returns (Some (processed_records s1 ++ processed_records s2))
              (processing_errors s1
               ++ error_entry 7 msg (lit "00046RKen       text" ++ LF)
               :: processing_errors s2)
       /\ (forall errs,
             run_end (sample_run (Some (lit "/readonly/out.json")))
             <> Returns None errs)
       /\ (forall recs errs,
             run_end (sample_run (Some (lit "/readonly/out.json")))
             = Returns (Some recs) errs ->
             recs = processed_records s1 ++ processed_records s2
             /\ exists extra,
                  errs = processing_errors s1
                         ++ error_entry 7 msg (lit "00046RKen       text" ++ LF)
                         :: processing_errors s2 ++ extra).
Proof.
  split; [|split; [|split; [|split]]].
  - refine (proj1 (C5_fatal_and_recoverable unit sample_decoder ascii_upper
                     default_max_str_digits sample_fs
                     (lit "no_layout.json") (lit "customer_data.txt") None)
              (mkExc FileNotFoundError
                 (lit "[Errno 2] No such file or directory: 'no_layout.json'")) _ _);
      vm_compute; reflexivity.
  - refine (proj1 (proj2 (C5_fatal_and_recoverable unit sample_decoder ascii_upper
                            default_max_str_digits sample_fs
                            (lit "layout.json") (lit "no_data.txt") None))
              tt (mkExc FileNotFoundError
                    (lit "[Errno 2] No such file or directory: 'no_data.txt'")) _ _ _);
      vm_compute; reflexivity.
  - refine (proj1 (proj2 (proj2 (C5_fatal_and_recoverable unit sample_decoder
                                   ascii_upper default_max_str_digits sample_fs
                                   (lit "layout.json") (lit "latin1.txt") None)))
              [lit "00044XLinus     +0000000100" ++ LF]
              (mkExc ValueError (lit "'utf-8' codec can't decode byte 0xe9"))
              [] [] _);
      vm_compute; reflexivity.
  - refine (proj1 (proj2 (proj2 (proj2 (C5_fatal_and_recoverable unit sample_decoder
                                          ascii_upper default_max_str_digits sample_fs
                                          (lit "layout.json")
                                          (lit "customer_data.txt") None))))
              tt (fresh 7) (lit "0004")
              (mkExc CobolParsingError
                 (lit "Line too short for field 'customer_id'")) _ _ _);
      vm_compute; reflexivity.
  - refine (proj2 (proj2 (proj2 (proj2 (proj2
              (C5_fatal_and_recoverable unit sample_decoder ascii_upper
                 default_max_str_digits sample_fs (lit "layout.json")
                 (lit "customer_data.txt") (Some (lit "/readonly/out.json")))))))
              tt (firstn 6 sample_data) (skipn 7 sample_data)
              (lit "00046RKen       text" ++ LF)
              (mkExc TypeError
                 (lit "'<' not supported between instances of 'str' and 'decimal.Decimal'"))
              _ _ _ _ _).
    + vm_compute. reflexivity.
    + vm_compute. reflexivity.
    + intros l k x Hin Hr. vm_compute in Hin.
      repeat (destruct Hin as [<-|Hin];
              [vm_compute in Hr;
               first [discriminate Hr | injection Hr as <-; reflexivity]|]).
      destruct Hin.
    + vm_compute. reflexivity.
    + vm_compute. reflexivity.
Defined.

Lemma C6_witness :
  loop sample_decoder ascii_upper default_max_str_digits tt (fresh 0)
    (firstn 5 sample_data ++ (lit "   " ++ LF) :: skipn 6 sample_data)
  = match loop sample_decoder ascii_upper default_max_str_digits tt (fresh 0) (firstn 5 sample_data) with
    | (s1, None) => loop sample_decoder ascii_upper default_max_str_digits tt (counted s1) (skipn 6 sample_data)
    | (s1, Some e) => (s1, Some e)
    end.
Proof.
  refine (C6_blank_lines_counted_only unit sample_decoder ascii_upper default_max_str_digits tt (fresh 0)
            (firstn 5 sample_data) (skipn 6 sample_data) (lit "   " ++ LF) _).
  repeat constructor.
Defined.

Example sample_run_written :
  run_written (sample_run (Some (lit "advanced_output.json")))
  = Some (JArr [ JObj [ (lit "customer_id", JInt 42);
                        (lit "status_code", JStr (lit "A"));
                        (lit "customer_name", JStr (lit "ADA"));
                        (lit "account_balance", JStr (lit "-123.45"));
                        (lit "is_active", JBool true) ];
                 JObj [ (lit "customer_id", JInt 43);
                        (lit "status_code", JStr (lit "N"));
                        (lit "customer_name", JStr (lit "GRACE"));
                        (lit "account_balance", JStr (lit "-600.00"));
                        (lit "is_active", JBool false) ] ]).
Proof. vm_compute. reflexivity. Qed.

Lemma C7_witness :
  exists recs errs objs,
    run_end (sample_run (Some (lit "advanced_output.json"))) = Returns (Some recs) errs
    /\ written_document (sample_run (Some (lit "advanced_output.json"))) = JArr objs
    /\ Forall2 record_written recs objs.
Proof.
  refine (C7_decimal_as_text unit sample_decoder ascii_upper default_max_str_digits sample_fs
            (lit "layout.json") (lit "customer_data.txt")
            (Some (lit "advanced_output.json"))
            (written_document (sample_run (Some (lit "advanced_output.json")))) _).
  vm_compute. reflexivity.
Defined.

Lemma C8_witness :
  let r := dict_set (customer 43 "N" "GRACE" (Dec.mkDecimal true 60000 (-2)))
             (lit "is_active") (VBool false) in
  dict_contains r (lit "is_active") = true
  /\ exists b, dict_get r (lit "is_active") = VBool b
               /\ (b = true <-> dict_get r (lit "status_code") = VStr (lit "A")).
Proof.
  refine (C8_is_active_flag unit sample_decoder ascii_upper default_max_str_digits sample_fs
            (lit "layout.json") (lit "customer_data.txt") None
            (returned_records (sample_run None)) (returned_errors (sample_run None))
            _ _ _).
  - vm_compute. reflexivity.
  - vm_compute. tauto.
Defined.


(** ** A record the interpreter cannot format

    The int [wide_id] is [10 ** 4300]; it has 4301 digits, one more than the
    default limit, so that [str] of it, an f-string that holds it and
    [json.dump] of it raise [ValueError]. *)

Lemma of_uint_acc_zeros (k : nat) (acc : positive) :
  Z.pos (Pos.of_uint_acc (Nat.iter k Decimal.D0 Decimal.Nil) acc)
  = (Z.pos acc * 10 ^ Z.of_nat k)%Z.
Proof.
  revert acc. induction k as [|k IH]; intros acc.
  - change (Z.pos acc = Z.pos acc * 1)%Z. lia.
  - change (Z.pos (Pos.of_uint_acc (Nat.iter k Decimal.D0 Decimal.Nil) (Pos.mul 10 acc))
            = Z.pos acc * 10 ^ Z.of_nat (S k))%Z.
    rewrite IH, Nat2Z.inj_succ, Z.pow_succ_r by lia.
    change (Z.pos (Pos.mul 10 acc)) with (10 * Z.pos acc)%Z. lia.
Qed.

Lemma wide_id_value : wide_id = (10 ^ 4300)%Z.
Proof.
  unfold wide_id.
  change (Z.pos (Pos.of_uint_acc (Nat.iter 4300 Decimal.D0 Decimal.Nil) 1)
          = 10 ^ 4300)%Z.
  rewrite of_uint_acc_zeros. change (Z.of_nat 4300) with 4300%Z.
  apply Z.mul_1_l.
Qed.







Lemma C10_witness :
  exists s1 s2 extra,
    loop sample_decoder ascii_upper default_max_str_digits tt (fresh 0) (firstn 4 sample_data) = (s1, None)
    /\ loop sample_decoder ascii_upper default_max_str_digits tt (fresh 5) (skipn 5 sample_data) = (s2, None)
    /\ returned_records (sample_run None)
       = processed_records s1 ++ processed_records s2
    /\ returned_errors (sample_run None)
       = processing_errors s1
         ++ error_entry 5
              (lit "Line " ++ PyStr.of_Z 5
               ++ lit ": Error processing record - Invalid status code 'None'")
              (lit "00045" ++ LF)
         :: processing_errors s2 ++ extra.
Proof.
  refine (C10_missing_status_rejected unit sample_decoder ascii_upper default_max_str_digits sample_fs
            (lit "layout.json") (lit "customer_data.txt") None tt
            (firstn 4 sample_data) (skipn 5 sample_data) (lit "00045" ++ LF) None
            [ (lit "customer_id", VInt 45) ]
            (returned_records (sample_run None)) (returned_errors (sample_run None))
            _ _ _ _ _ _);
    vm_compute; reflexivity.
Defined.

Lemma error_line_numbers_witness :
  StronglySorted Z.lt (line_numbers (returned_errors (sample_run None)))
  /\ Forall (fun n => (1 <= n <= Z.of_nat (List.length sample_data))%Z)
       (line_numbers (returned_errors (sample_run None))).
Proof.
  refine (error_line_numbers_increase unit sample_decoder ascii_upper default_max_str_digits sample_fs
            (lit "layout.json") (lit "customer_data.txt") None sample_data None
            (returned_records (sample_run None)) (returned_errors (sample_run None))
            _ _);
    vm_compute; reflexivity.
Defined.

Example sample_line_numbers :
  line_numbers (returned_errors (sample_run None)) = [3; 5; 7; 8]%Z.
Proof. vm_compute. reflexivity. Qed.

Lemma records_plus_errors_witness :
  List.length (returned_records (sample_run None))
  + List.length (returned_errors (sample_run None))
  = List.length sample_data - count_blank sample_data.
Proof.
  refine (records_plus_errors_no_output unit sample_decoder ascii_upper default_max_str_digits sample_fs
            (lit "layout.json") (lit "customer_data.txt") sample_data None
            (returned_records (sample_run None)) (returned_errors (sample_run None))
            _ _);
    vm_compute; reflexivity.
Defined.

(** * The sample run, continued *)

Example sample_two_parts :
  loop sample_decoder ascii_upper default_max_str_digits tt (fresh 0) sample_data
  = (extend (fst (loop sample_decoder ascii_upper default_max_str_digits tt (fresh 0) (firstn 3 sample_data)))
       (fst (loop sample_decoder ascii_upper default_max_str_digits tt (fresh 3) (skipn 3 sample_data))),
     None).
Proof. vm_compute. reflexivity. Qed.

Lemma interrupt_witness :
  run_end (advanced_cobol_processor sample_decoder ascii_upper default_max_str_digits interrupted_fs
             (lit "layout.json") (lit "customer_data.txt") None)
  = Propagates (mkExc NonException (lit "KeyboardInterrupt"))
  /\ run_written (advanced_cobol_processor sample_decoder ascii_upper default_max_str_digits interrupted_fs
                    (lit "layout.json") (lit "customer_data.txt") None)
     = None.
Proof.
  refine (interrupt_propagates unit sample_decoder ascii_upper default_max_str_digits interrupted_fs
            (lit "layout.json") (lit "customer_data.txt") None tt
            [lit "00045" ++ LF] [lit "0004" ++ LF] (lit "interrupt" ++ LF) None
            (mkExc NonException (lit "KeyboardInterrupt")) _ _ _ _ _ _);
    vm_compute; reflexivity.
Defined.

Lemma fatal_run_witness :
  run_written (advanced_cobol_processor sample_decoder ascii_upper default_max_str_digits sample_fs
                 (lit "layout.json") (lit "latin1.txt") None) = None
  /\ exists msg,
       [EText (lit "File Processing Error: 'utf-8' codec can't decode byte 0xe9")]
       = [EText msg]
       /\ ((exists e, fs_layout sample_fs (lit "layout.json") = Raise e
                      /\ msg = lit "Layout Load Error: " ++ exc_str e)
           \/ msg = lit "Data File Not Found: " ++ lit "latin1.txt"
           \/ (exists e, msg = lit "File Processing Error: " ++ exc_str e)).
Proof.
  refine (fatal_run_one_message unit sample_decoder ascii_upper default_max_str_digits sample_fs
            (lit "layout.json") (lit "latin1.txt") None _ _).
  vm_compute. reflexivity.
Defined.

Lemma output_path_witness :
  exists errs0,
    run_end (sample_run None)
    = Returns (Some (returned_records (sample_run (Some (lit "/readonly/out.json")))))
        errs0
    /\ (returned_errors (sample_run (Some (lit "/readonly/out.json"))) = errs0
        \/ exists e,
             returned_errors (sample_run (Some (lit "/readonly/out.json")))
             = errs0 ++ [EText (lit "JSON Output Error: " ++ exc_str e)]).
Proof.
  refine (output_path_leaves_results unit sample_decoder ascii_upper default_max_str_digits sample_fs
            (lit "layout.json") (lit "customer_data.txt")
            (Some (lit "/readonly/out.json"))
            (Some (returned_records (sample_run (Some (lit "/readonly/out.json")))))
            (returned_errors (sample_run (Some (lit "/readonly/out.json")))) _).
  vm_compute. reflexivity.
Defined.




Lemma text_balance_witness :
  process_line sample_decoder ascii_upper default_max_str_digits tt (fresh 6)
    (lit "00046RKen       text" ++ LF)
  = (mkState []
       [error_entry 7
          (lit "Line " ++ PyStr.of_Z 7 ++ lit ": Unexpected error - "
           ++ lit "'<' not supported between instances of 'str' and 'decimal.Decimal'")
          (lit "00046RKen       text" ++ LF)]
       7
       [(ERROR,
         lit "Line " ++ PyStr.of_Z 7 ++ lit ": Unexpected error - "
         ++ lit "'<' not supported between instances of 'str' and 'decimal.Decimal'")],
     None).
Proof.
  refine (text_balance_is_unexpected_error unit sample_decoder ascii_upper
            default_max_str_digits tt (fresh 6)
            (lit "00046RKen       text" ++ LF)
            [ (lit "customer_id", VInt 46);
              (lit "status_code", VStr (lit "R"));
              (lit "account_balance", VStr (lit "text")) ]
            (lit "text") (lit "None") _ _ _ _ _);
    vm_compute; reflexivity.
Defined.

Lemma quiet_balance_witness :
  exists r',
    process_line sample_decoder ascii_upper default_max_str_digits tt (fresh 0)
      (lit "00042AAda       -0000012345" ++ LF)
    = (mkState ([] ++ [r']) [] (0 + 1) [], None)
    /\ dict_get r' (lit "account_balance")
       = dict_get (customer 42 "A" "Ada" (Dec.mkDecimal true 12345 (-2)))
           (lit "account_balance").
Proof.
  refine (quiet_balance_accepted unit sample_decoder ascii_upper
            default_max_str_digits tt (fresh 0)
            (lit "00042AAda       -0000012345" ++ LF)
            (customer 42 "A" "Ada" (Dec.mkDecimal true 12345 (-2)))
            (lit "Ada") _ _ _ _ _).
  - vm_compute. reflexivity.
  - vm_compute. reflexivity.
  - vm_compute. reflexivity.
  - vm_compute. reflexivity.
  - right. exists (Dec.mkDecimal true 12345 (-2)). split; vm_compute; reflexivity.
Defined.

Lemma other_fields_witness :
  dict_get (nth 0 (returned_records (sample_run None)) []) (lit "customer_id")
  = dict_get (customer 42 "A" "Ada" (Dec.mkDecimal true 12345 (-2))) (lit "customer_id")
  /\ dict_contains (nth 0 (returned_records (sample_run None)) []) (lit "customer_id")
     = dict_contains (customer 42 "A" "Ada" (Dec.mkDecimal true 12345 (-2)))
         (lit "customer_id").
Proof.
  refine (rules_keep_other_fields ascii_upper default_max_str_digits 1
            (customer 42 "A" "Ada" (Dec.mkDecimal true 12345 (-2)))
            (nth 0 (returned_records (sample_run None)) []) []
            (lit "customer_id") _ _ _).
  - vm_compute. reflexivity.
  - lit_neq.
  - lit_neq.
Defined.

Lemma valid_status_witness :
  Forall has_valid_status (returned_records (sample_run None)).
Proof.
  refine (returned_records_have_valid_status unit sample_decoder ascii_upper default_max_str_digits sample_fs
            (lit "layout.json") (lit "customer_data.txt") None
            (returned_records (sample_run None)) (returned_errors (sample_run None)) _).
  vm_compute. reflexivity.
Defined.

Lemma name_their_line_witness :
  exists line_errs extra,
    returned_errors (sample_run (Some (lit "/readonly/out.json"))) = line_errs ++ extra
    /\ Forall names_its_line line_errs
    /\ Forall (fun e => is_line_error e = false) extra.
Proof.
  refine (error_entries_name_their_line unit sample_decoder ascii_upper default_max_str_digits sample_fs
            (lit "layout.json") (lit "customer_data.txt")
            (Some (lit "/readonly/out.json"))
            (returned_records (sample_run (Some (lit "/readonly/out.json"))))
            (returned_errors (sample_run (Some (lit "/readonly/out.json")))) _).
  vm_compute. reflexivity.
Defined.


Lemma serializable_witness :
  exists items,
    json_dump_errors (returned_errors (sample_run (Some (lit "/readonly/out.json"))))
    = Normal (JArr items)
    /\ Forall2 item_written
         (returned_errors (sample_run (Some (lit "/readonly/out.json")))) items.
Proof.
  refine (error_list_is_serializable unit sample_decoder ascii_upper default_max_str_digits sample_fs
            (lit "layout.json") (lit "customer_data.txt")
            (Some (lit "/readonly/out.json"))
            (Some (returned_records (sample_run (Some (lit "/readonly/out.json")))))
            (returned_errors (sample_run (Some (lit "/readonly/out.json")))) _).
  vm_compute. reflexivity.
Defined.

(** The sample script: two records, four lines with errors, the output
    written, the report refused by the file system. *)
Example sample_script_printed :
  script_printed sample_script
  = [ (Stdout, LF ++ lit "Advanced processing complete.");
      (Stdout, lit " - Successfully processed records: 2");
      (Stdout, lit " - Lines with errors: 4");
      (Stdout, lit " - Saving error details to processing_errors.json");
      (Stdout, lit "  - Failed to write error report: [Errno 13] Permission denied: 'processing_errors.json'") ]
  /\ script_end_of sample_script = Finished.
Proof. split; vm_compute; reflexivity. Qed.

Lemma script_counts_witness :
  (exists rest,
     script_printed sample_script
     = [ (Stdout, LF ++ lit "Advanced processing complete.");
         (Stdout, lit " - Successfully processed records: "
                  ++ PyStr.of_Z (Z.of_nat (List.length (returned_records
                       (script_call sample_decoder ascii_upper default_max_str_digits sample_fs (lit ""))))));
         (Stdout, lit " - Lines with errors: "
                  ++ PyStr.of_Z (Z.of_nat (List.length (returned_errors
                       (script_call sample_decoder ascii_upper default_max_str_digits sample_fs (lit "")))))) ]
       ++ rest)
  /\ List.length (returned_records
                    (script_call sample_decoder ascii_upper default_max_str_digits sample_fs (lit "")))
     + List.length (returned_errors
                      (script_call sample_decoder ascii_upper default_max_str_digits sample_fs (lit "")))
     = List.length sample_data - count_blank sample_data
       + match script_output sample_script with
         | Some _ => 0
         | None => 1
         end.
Proof.
  refine (script_counts unit sample_decoder ascii_upper default_max_str_digits sample_dict_str sample_fs
            (fun _ => true) (lit "") sample_data None
            (returned_records (script_call sample_decoder ascii_upper default_max_str_digits sample_fs (lit "")))
            (returned_errors (script_call sample_decoder ascii_upper default_max_str_digits sample_fs (lit "")))
            _ _ _ _);
    vm_compute; reflexivity.
Defined.

Lemma script_report_witness :
  match returned_errors (script_call sample_decoder ascii_upper default_max_str_digits sample_fs (lit "")) with
  | [] =>
      script_report sample_script = None /\ script_end_of sample_script = Finished
  | _ :: _ =>
      exists items,
        Forall2 item_written
          (returned_errors (script_call sample_decoder ascii_upper default_max_str_digits sample_fs (lit "")))
          items
        /\ match fs_write sample_fs (path_join (lit "") (lit "processing_errors.json"))
                   (JArr items) with
           | None =>
               script_report sample_script = Some (JArr items)
               /\ script_end_of sample_script = Finished
           | Some e =>
               script_report sample_script = None
               /\ script_end_of sample_script
                  = if is_Exception (exc_cls e) then Finished else Uncaught e
           end
  end.
Proof.
  refine (script_error_report unit sample_decoder ascii_upper default_max_str_digits sample_dict_str sample_fs
            (fun _ => true) (lit "")
            (returned_records (script_call sample_decoder ascii_upper default_max_str_digits sample_fs (lit "")))
            (returned_errors (script_call sample_decoder ascii_upper default_max_str_digits sample_fs (lit "")))
            _ _ _);
    vm_compute; reflexivity.
Defined.

Lemma script_critical_witness :
  exists msg,
    returned_errors (script_call sample_decoder ascii_upper default_max_str_digits sample_fs (lit "data"))
    = [EText msg]
    /\ script sample_decoder ascii_upper default_max_str_digits sample_dict_str sample_fs (fun _ => true)
         (lit "data")
       = mkScript Finished
           [ (Stdout, LF ++ lit "Advanced processing failed to start or complete due to critical errors.");
             (Stdout, lit "Initial errors:");
             (Stdout, lit "  - " ++ msg) ]
           (run_log (script_call sample_decoder ascii_upper default_max_str_digits sample_fs (lit "data")))
           None None.
Proof.
  refine (script_critical_failure unit sample_decoder ascii_upper default_max_str_digits sample_dict_str
            sample_fs (fun _ => true) (lit "data")
            (returned_errors (script_call sample_decoder ascii_upper default_max_str_digits sample_fs (lit "data")))
            _ _ _);
    vm_compute; reflexivity.
Defined.
